(** * analysis.js: the session/progress controller of the analysis dashboard

    A shallow embedding of [src/static/js/analysis.js]: the class
    [ModernAnalysisSystem] and the free functions that follow it in the same
    file, together with the properties of the controller that the
    specification states.

    Conventions of the embedding.
    - A method is a computation in the monad [JS]: it threads the [World]
      (the fields of the instance, the module-level variables, and the parts
      of the browser the code touches) and may complete abruptly with a
      thrown [Error], which [try_catch] intercepts as [try { } catch { }]
      does.
    - The browser side that the code only reads (which elements exist, the
      values typed in the inputs, the answer to [confirm], what the remote
      service replies) is the environment [Env].
    - [await] is collapsed: the continuation of an [async] function runs
      right after the request it waits for, as the event loop does when no
      other callback is queued in between.
    - The DOM is write-only for the code modelled here, so it is kept as the
      ordered log of the mutations performed. *)

From Stdlib Require Import ZArith NArith QArith Qround Lqa Ascii String List Bool.
From Stdlib Require Import DecimalString.
From stdpp Require Import base gmap strings list.

Open Scope string_scope.
Open Scope list_scope.

(** ** JavaScript values *)

(** A DOM string as its UTF-16 code units: [length] and [trim] are defined on
    code units. *)
Definition jsstring : Type := list N.

(** WhiteSpace and LineTerminator code points of ECMAScript, the ones
    [String.prototype.trim] strips. *)
Definition isWhiteSpace (c : N) : bool :=
  ((9 <=? c) && (c <=? 13) || (c =? 32) || (c =? 160) || (c =? 5760)
   || (8192 <=? c) && (c <=? 8202) || (c =? 8232) || (c =? 8233)
   || (c =? 8239) || (c =? 8287) || (c =? 12288) || (c =? 65279))%N.

Fixpoint trimStart (s : jsstring) : jsstring :=
  match s with
  | c :: s' => if isWhiteSpace c then trimStart s' else s
  | [] => []
  end.

Definition trimEnd (s : jsstring) : jsstring := rev (trimStart (rev s)).

Definition trim (s : jsstring) : jsstring := trimEnd (trimStart s).

(** Code units of an ASCII literal. *)
Fixpoint of_ascii (s : string) : jsstring :=
  match s with
  | EmptyString => []
  | String a s' => N_of_ascii a :: of_ascii s'
  end.

(** A value that is a string, [null] or [undefined]: a field of a JSON
    reply, an identifier kept in a variable, an item of [localStorage]. *)
Inductive value : Type :=
| null
| undefined
| str (s : string).

(** Truthiness: a string is truthy when it is not empty. *)
Definition truthy (v : value) : bool :=
  match v with
  | str s => negb (String.eqb s EmptyString)
  | _ => false
  end.

(** The text a template literal interpolates. *)
Definition to_string (v : value) : string :=
  match v with
  | null => "null"
  | undefined => "undefined"
  | str s => s
  end.

(** [v || d]. *)
Definition or_else (v : value) (d : string) : string :=
  if truthy v then to_string v else d.

(** The [message] of [new Error(v)]: empty when [v] is [undefined]. *)
Definition Error_message (v : value) : string :=
  match v with
  | undefined => EmptyString
  | _ => to_string v
  end.

(** A JavaScript number: the finite values as rationals (every operation
    used below is exact on doubles), the two infinities and NaN. The sign of
    zero is not kept: it does not show in a template literal. *)
Inductive number : Type :=
| Num (q : Q)
| PosInf
| NegInf
| NaN.

(** [a < b] of JavaScript: false as soon as one side is NaN. *)
Definition num_lt (a b : number) : bool :=
  match a, b with
  | NaN, _ | _, NaN => false
  | NegInf, NegInf => false
  | NegInf, _ => true
  | _, NegInf => false
  | PosInf, _ => false
  | _, PosInf => true
  | Num x, Num y => negb (Qle_bool y x)
  end.

Definition Math_min (a b : number) : number :=
  match a, b with
  | NaN, _ | _, NaN => NaN
  | _, _ => if num_lt b a then b else a
  end.

Definition Math_max (a b : number) : number :=
  match a, b with
  | NaN, _ | _, NaN => NaN
  | _, _ => if num_lt a b then b else a
  end.

(** [Math.round]: the nearest integer, halves going up. *)
Definition Math_round (a : number) : number :=
  match a with
  | Num q => Num (inject_Z (Qfloor (q + (1 # 2))))
  | _ => a
  end.

(** ** Data model *)

Record Session : Type := {
  session_id : string;
  status : string;
  segmento : value;
  produto : value;
  etapas_salvas : nat
}.

Inductive Severity : Type := info | success | warning | error.

Record Notification : Type := {
  message : string;
  type : Severity;
  duration : nat
}.

Record File : Type := {
  file_name : string;
  file_size : N;
  file_type : string
}.

(** ** Remote service *)

Inductive ReqBody : Type :=
| NoBody
| FormJson (entries : list (string * jsstring))
| AnalysisJson (seg prod : jsstring)
| Multipart (f : File).

Record Request : Type := {
  method : string;
  url : string;
  body : ReqBody
}.

(** The fields the code reads from a JSON reply; an absent field is
    [undefined], [None], [false] (only the truthiness of [success] and
    [completed] is read) or [NaN]. *)
Record Body : Type := {
  b_success : bool;
  b_error : value;
  b_session_id : value;
  b_percentage : number;
  b_current_step : value;
  b_estimated_time : value;
  b_completed : bool;
  b_sessions : option (list Session);
  b_session : option Session;
  b_file_id : value
}.

Inductive Payload : Type :=
| Json (b : Body)
| NotJson (parse_error : string).

Record Response : Type := {
  ok : bool;
  http_status : string;
  statusText : string;
  json_content_type : bool;
  payload : Payload
}.

Inductive Reply : Type :=
| Answer (r : Response)
| NetworkError (msg : string).

(** ** The view: what the code writes to the DOM *)

Inductive Handler : Type :=
| continueSession_click
| viewResults_click
| deleteSession_click.

Record Button : Type := {
  btn_class : string;
  onclick : Handler;
  onclick_arg : string
}.

Record SessionItem : Type := {
  item_active : bool;
  item_select : string;
  item_name : string;
  item_badge : string;
  item_status_text : string;
  item_produto : string;
  item_etapas : option nat;
  item_actions : list Button
}.

Inductive DomWrite : Type :=
| StyleWidthPct (sel : string) (n : number)
| TextPct (sel : string) (n : number)
| TitlePct (n : number)
| StatusLine (sel : string) (msg : string) (estimatedTime : option string)
| ProgressText (sel : string) (step : value) (estimatedTime : string)
| StyleDisplay (sel : string) (value : string)
| ScrollIntoView (sel : string)
| FocusOn (sel : string)
| SessionsGrid (items : list SessionItem)
| SessionsEmpty
| ButtonDisabled (sel : string) (disabled : bool)
| InsertAnalysisControls.

(** ** The world *)

(** A timer handle is an integer greater than zero, hence always truthy.
    Which callback a [setInterval] timer runs: the arrow function of the
    method [startProgressMonitoring], or the one of the free function of the
    same name, which closes over its [sessionId]. *)
Inductive Poller : Type :=
| MethodPoll
| FunctionPoll (sessionId : string).

(** The instance fields set by the constructor. *)
Record This : Type := {
  this_currentSessionId : value;
  this_progressInterval : option positive;
  this_sessions : list (string * Session);
  this_isPaused : bool;
  this_notifications : list Notification
}.

(** The module-level [let] variables. *)
Record Globals : Type := {
  currentSessionId : value;
  progressInterval : option positive
}.

Record Browser : Type := {
  localStorage : gmap string string;
  intervals : list (positive * Poller);
  next_timer : positive;
  requests : list Request;
  toasts : list Notification;
  dom : list DomWrite;
  console : list string
}.

Record World : Type := {
  this : This;
  globals : Globals;
  browser : Browser
}.

Record Env : Type := {
  has_element : string -> bool;
  field_value : string -> option jsstring;
  form_entries : list (string * jsstring);
  confirm : string -> bool;
  server : list Request -> Reply
}.

(** ** The monad of method bodies *)

Record Error : Type := { error_message : string }.

Inductive Completion (A : Type) : Type :=
| Normal (a : A)
| Throw (e : Error).
Arguments Normal {A} a.
Arguments Throw {A} e.

Definition JS (A : Type) : Type := World -> Completion A * World.

Definition ret {A : Type} (a : A) : JS A := fun w => (Normal a, w).

Definition bind {A B : Type} (m : JS A) (k : A -> JS B) : JS B :=
  fun w =>
    match m w with
    | (Normal a, w') => k a w'
    | (Throw e, w') => (Throw e, w')
    end.

Definition throw {A : Type} (msg : string) : JS A :=
  fun w => (Throw {| error_message := msg |}, w).

Definition try_catch {A : Type} (m : JS A) (h : Error -> JS A) : JS A :=
  fun w =>
    match m w with
    | (Normal a, w') => (Normal a, w')
    | (Throw e, w') => h e w'
    end.

Definition gets {A : Type} (f : World -> A) : JS A := fun w => (Normal (f w), w).

Definition modify (f : World -> World) : JS unit := fun w => (Normal tt, f w).

(** The world a computation leaves behind. *)
Definition exec {A : Type} (m : JS A) (w : World) : World := snd (m w).

Declare Scope js_scope.
Delimit Scope js_scope with js.
Notation "x <- m ;; k" := (bind m (fun x => k))
  (at level 100, m at next level, right associativity) : js_scope.
Notation "m ;; k" := (bind m (fun _ => k))
  (at level 100, right associativity) : js_scope.
Notation "'when' c 'then' m" := (if c then m else ret tt)
  (at level 100, c at next level, right associativity) : js_scope.
Open Scope js_scope.

(** ** Field updates *)

Definition with_this (f : This -> This) (w : World) : World :=
  {| this := f (this w); globals := globals w; browser := browser w |}.

Definition with_globals (f : Globals -> Globals) (w : World) : World :=
  {| this := this w; globals := f (globals w); browser := browser w |}.

Definition with_browser (f : Browser -> Browser) (w : World) : World :=
  {| this := this w; globals := globals w; browser := f (browser w) |}.

Definition set_this_currentSessionId (v : value) : JS unit :=
  modify (with_this (fun t =>
    {| this_currentSessionId := v;
       this_progressInterval := this_progressInterval t;
       this_sessions := this_sessions t;
       this_isPaused := this_isPaused t;
       this_notifications := this_notifications t |})).

Definition set_this_progressInterval (v : option positive) : JS unit :=
  modify (with_this (fun t =>
    {| this_currentSessionId := this_currentSessionId t;
       this_progressInterval := v;
       this_sessions := this_sessions t;
       this_isPaused := this_isPaused t;
       this_notifications := this_notifications t |})).

Definition set_this_sessions (v : list (string * Session)) : JS unit :=
  modify (with_this (fun t =>
    {| this_currentSessionId := this_currentSessionId t;
       this_progressInterval := this_progressInterval t;
       this_sessions := v;
       this_isPaused := this_isPaused t;
       this_notifications := this_notifications t |})).

Definition set_this_isPaused (v : bool) : JS unit :=
  modify (with_this (fun t =>
    {| this_currentSessionId := this_currentSessionId t;
       this_progressInterval := this_progressInterval t;
       this_sessions := this_sessions t;
       this_isPaused := v;
       this_notifications := this_notifications t |})).

Definition push_this_notifications (n : Notification) : JS unit :=
  modify (with_this (fun t =>
    {| this_currentSessionId := this_currentSessionId t;
       this_progressInterval := this_progressInterval t;
       this_sessions := this_sessions t;
       this_isPaused := this_isPaused t;
       this_notifications := this_notifications t ++ [n] |})).

Definition set_currentSessionId (v : value) : JS unit :=
  modify (with_globals (fun g =>
    {| currentSessionId := v; progressInterval := progressInterval g |})).

Definition set_progressInterval (v : option positive) : JS unit :=
  modify (with_globals (fun g =>
    {| currentSessionId := currentSessionId g; progressInterval := v |})).

Definition set_localStorage (f : gmap string string -> gmap string string) : JS unit :=
  modify (with_browser (fun b =>
    {| localStorage := f (localStorage b);
       intervals := intervals b;
       next_timer := next_timer b;
       requests := requests b;
       toasts := toasts b;
       dom := dom b;
       console := console b |})).

Definition set_intervals (f : list (positive * Poller) -> list (positive * Poller))
    (next : positive -> positive) : JS unit :=
  modify (with_browser (fun b =>
    {| localStorage := localStorage b;
       intervals := f (intervals b);
       next_timer := next (next_timer b);
       requests := requests b;
       toasts := toasts b;
       dom := dom b;
       console := console b |})).

Definition push_request (r : Request) : JS unit :=
  modify (with_browser (fun b =>
    {| localStorage := localStorage b;
       intervals := intervals b;
       next_timer := next_timer b;
       requests := requests b ++ [r];
       toasts := toasts b;
       dom := dom b;
       console := console b |})).

Definition push_toast (n : Notification) : JS unit :=
  modify (with_browser (fun b =>
    {| localStorage := localStorage b;
       intervals := intervals b;
       next_timer := next_timer b;
       requests := requests b;
       toasts := toasts b ++ [n];
       dom := dom b;
       console := console b |})).

Definition write_dom (d : DomWrite) : JS unit :=
  modify (with_browser (fun b =>
    {| localStorage := localStorage b;
       intervals := intervals b;
       next_timer := next_timer b;
       requests := requests b;
       toasts := toasts b;
       dom := dom b ++ [d];
       console := console b |})).

Definition console_log (s : string) : JS unit :=
  modify (with_browser (fun b =>
    {| localStorage := localStorage b;
       intervals := intervals b;
       next_timer := next_timer b;
       requests := requests b;
       toasts := toasts b;
       dom := dom b;
       console := console b ++ [s] |})).

(** ** Browser primitives *)

Section Primitives.
Variable env : Env.

(** [fetch]: the request goes on the wire, then the service answers or the
    transport fails, which rejects the promise. *)
Definition fetch (m u : string) (b : ReqBody) : JS Response :=
  push_request {| method := m; url := u; body := b |} ;;
  rs <- gets (fun w => requests (browser w)) ;;
  match server env rs with
  | Answer r => ret r
  | NetworkError msg => throw msg
  end.

(** [response.json()]: rejects when the payload does not parse. *)
Definition json (r : Response) : JS Body :=
  match payload r with
  | Json b => ret b
  | NotJson e => throw e
  end.

Definition getElement (sel : string) : JS bool := ret (has_element env sel).

End Primitives.

(** [setInterval] hands out a fresh handle and keeps the timer active until
    it is cleared. *)
Definition setInterval (p : Poller) : JS positive :=
  id <- gets (fun w => next_timer (browser w)) ;;
  set_intervals (fun l => l ++ [(id, p)]) Pos.succ ;;
  ret id.

(** [clearInterval(h)]: nothing happens when [h] is [null] or names no
    active timer. *)
Definition clearInterval (h : option positive) : JS unit :=
  match h with
  | Some id =>
      set_intervals (List.filter (fun t => negb (Pos.eqb (fst t) id))) (fun n => n)
  | None => ret tt
  end.

Definition getItem (k : string) : JS value :=
  gets (fun w =>
    match localStorage (browser w) !! k with
    | Some s => str s
    | None => null
    end).

Definition setItem (k : string) (v : value) : JS unit :=
  set_localStorage (insert k (to_string v)).

Definition removeItem (k : string) : JS unit :=
  set_localStorage (delete k).

(** The handles of the timers that are active. *)
Definition active_timers (w : World) : list positive :=
  map fst (intervals (browser w)).

(** The polling timers among them that run the method's callback. *)
Definition method_pollers (w : World) : list positive :=
  map fst (List.filter (fun t => match snd t with MethodPoll => true | _ => false end)
                       (intervals (browser w))).

(** [Map.prototype.set]: an existing key keeps its place. *)
Fixpoint Map_set (k : string) (v : Session) (m : list (string * Session))
  : list (string * Session) :=
  match m with
  | [] => [(k, v)]
  | (k', v') :: m' =>
      if String.eqb k' k then (k, v) :: m' else (k', v') :: Map_set k v m'
  end.

Definition Map_delete (k : string) (m : list (string * Session))
  : list (string * Session) :=
  List.filter (fun e => negb (String.eqb (fst e) k)) m.

(** ** The class [ModernAnalysisSystem] *)

Module ModernAnalysisSystem.

(** The state the constructor sets up. *)
Definition constructor : This :=
  {| this_currentSessionId := null;
     this_progressInterval := None;
     this_sessions := [];
     this_isPaused := false;
     this_notifications := [] |}.

Section Methods.
Variable env : Env.

(** [showNotification(message, type = 'info', duration = 5000)]: the element
    is appended to the container and pushed on [this.notifications]; the
    timeout that removes it after [duration] is kept as the field. *)
Definition showNotification (msg : string) (ty : Severity) (dur : nat) : JS unit :=
  push_this_notifications {| message := msg; type := ty; duration := dur |}.

Definition showProgress (show : bool) : JS unit :=
  container <- getElement env "progressContainer" ;;
  when container then
    write_dom (StyleDisplay "progressContainer" (if show then "block" else "none")) ;;
    when show then write_dom (ScrollIntoView "progressContainer").

Definition updateSessionControls (st : string) : JS unit :=
  let button (id : string) (show : bool) : JS unit :=
    btn <- getElement env id ;;
    when btn then
      write_dom (StyleDisplay id (if show then "inline-flex" else "none")) in
  button "pauseBtn" (String.eqb st "running") ;;
  button "resumeBtn" (String.eqb st "paused") ;;
  button "saveBtn" (String.eqb st "running" || String.eqb st "paused").

(** [updateProgress(percentage, message, totalSteps = 13, estimatedTime = '')];
    the body does not read [totalSteps]. *)
Definition updateProgress (percentage : number) (msg : value)
    (estimatedTime : value) : JS unit :=
  progressFill <- getElement env ".progress-fill" ;;
  progressPercentage <- getElement env ".progress-percentage" ;;
  progressStatus <- getElement env ".progress-status" ;;
  (when progressFill then
     write_dom (StyleWidthPct ".progress-fill"
                  (Math_max (Num 0) (Math_min (Num 100) percentage)))) ;;
  (when progressPercentage then
     write_dom (TextPct ".progress-percentage" (Math_round percentage))) ;;
  (when progressStatus && truthy msg then
     write_dom (StatusLine ".progress-status" (to_string msg)
                  (if truthy estimatedTime then Some (to_string estimatedTime)
                   else None))) ;;
  write_dom (TitlePct (Math_round percentage)).

Definition stopProgressMonitoring : JS unit :=
  h <- gets (fun w => this_progressInterval (this w)) ;;
  match h with
  | Some id =>
      clearInterval (Some id) ;;
      set_this_progressInterval None
  | None => ret tt
  end.

Definition getStatusClass (st : string) : string :=
  if String.eqb st "running" then "primary"
  else if String.eqb st "paused" then "warning"
  else if String.eqb st "completed" then "success"
  else if String.eqb st "error" then "error"
  else "secondary".

Definition getStatusText (st : string) : string :=
  if String.eqb st "running" then "Em execução"
  else if String.eqb st "paused" then "Pausada"
  else if String.eqb st "completed" then "Concluída"
  else if String.eqb st "error" then "Erro"
  else if String.eqb st "saved" then "Salva"
  else "Desconhecido".

(** [Array.prototype.includes] on strings. *)
Definition includes (l : list string) (s : string) : bool :=
  existsb (String.eqb s) l.

Definition getSessionActions (session : Session) (sessionId : string) : list Button :=
  let actions := [] in
  let actions :=
    if includes ["paused"; "error"; "saved"] (status session)
    then actions ++ [{| btn_class := "btn btn-primary btn-sm";
                        onclick := continueSession_click;
                        onclick_arg := sessionId |}]
    else actions in
  let actions :=
    if String.eqb (status session) "completed"
    then actions ++ [{| btn_class := "btn btn-secondary btn-sm";
                        onclick := viewResults_click;
                        onclick_arg := sessionId |}]
    else actions in
  actions ++ [{| btn_class := "btn btn-error btn-sm";
                 onclick := deleteSession_click;
                 onclick_arg := sessionId |}].

Definition renderEmptySessionsList : JS unit :=
  container <- getElement env "sessionsList" ;;
  when container then write_dom SessionsEmpty.

(** One [.session-item] of the grid; the dates, which [Intl] formats, are
    left out of the view. *)
Definition renderSessionItem (e : string * Session) : SessionItem :=
  let '(sessionId, session) := e in
  {| item_active := String.eqb (status session) "running";
     item_select := sessionId;
     item_name := or_else (segmento session) "Segmento não definido";
     item_badge := getStatusClass (status session);
     item_status_text := getStatusText (status session);
     item_produto := or_else (produto session) "N/A";
     item_etapas := match etapas_salvas session with
                    | O => None
                    | n => Some n
                    end;
     item_actions := getSessionActions session sessionId |}.

Definition renderSessionsList : JS unit :=
  container <- getElement env "sessionsList" ;;
  when container then
    m <- gets (fun w => this_sessions (this w)) ;;
    match m with
    | [] => renderEmptySessionsList
    | _ => write_dom (SessionsGrid (map renderSessionItem m))
    end.

Definition loadSavedSessions : JS unit :=
  try_catch
    (response <- fetch env "GET" "/api/sessions" NoBody ;;
     (if ok response then ret tt else throw "Erro ao carregar sessões") ;;
     result <- json response ;;
     if b_success result then
       set_this_sessions [] ;;
       match b_sessions result with
       | Some l =>
           m <- gets (fun w => this_sessions (this w)) ;;
           set_this_sessions
             (fold_left (fun m s => Map_set (session_id s) s m) l m) ;;
           renderSessionsList
       | None => throw "Cannot read properties of undefined (reading 'forEach')"
       end
     else
       console_log "Nenhuma sessão encontrada" ;;
       renderEmptySessionsList)
    (fun e =>
       console_log ("Erro ao carregar sessões: " +:+ error_message e) ;;
       renderEmptySessionsList).

(** The arrow function that [startProgressMonitoring] hands to
    [setInterval]: one poll of the progress endpoint. *)
Definition progressTick : JS unit :=
  try_catch
    (sid <- gets (fun w => this_currentSessionId (this w)) ;;
     response <- fetch env "GET" ("/api/progress/" +:+ to_string sid) NoBody ;;
     data <- json response ;;
     if b_success data then
       updateProgress (b_percentage data) (b_current_step data)
                      (b_estimated_time data) ;;
       when b_completed data then
         stopProgressMonitoring ;;
         showNotification "Análise concluída com sucesso!" success 5000 ;;
         showProgress false ;;
         updateSessionControls "completed" ;;
         removeItem "currentSessionId" ;;
         loadSavedSessions
     else
       when truthy (b_error data) then
         stopProgressMonitoring ;;
         showNotification ("Erro: " +:+ to_string (b_error data)) error 5000 ;;
         showProgress false)
    (fun e => console_log ("Erro no monitoramento: " +:+ error_message e)).

Definition startProgressMonitoring : JS unit :=
  sid <- gets (fun w => this_currentSessionId (this w)) ;;
  when truthy sid then
    id <- setInterval MethodPoll ;;
    set_this_progressInterval (Some id).

(** *** File upload *)

Definition maxSize : N := 10 * 1024 * 1024.

Definition allowedTypes : list string :=
  ["application/pdf";
   "text/plain";
   "application/msword";
   "application/vnd.openxmlformats-officedocument.wordprocessingml.document"].

Definition validateFile (file : File) : JS bool :=
  if (maxSize <? file_size file)%N then
    showNotification "Arquivo muito grande. Máximo 10MB." warning 5000 ;;
    ret false
  else if negb (includes allowedTypes (file_type file)) then
    showNotification "Tipo de arquivo não suportado." warning 5000 ;;
    ret false
  else ret true.

(** The class has no method [addFileToList]: the call throws a TypeError. *)
Definition addFileToList (file : File) (file_id : value) : JS unit :=
  throw "this.addFileToList is not a function".

Definition uploadFile (file : File) : JS unit :=
  try_catch
    (response <- fetch env "POST" "/api/upload" (Multipart file) ;;
     result <- json response ;;
     if b_success result then
       showNotification ("Arquivo " +:+ file_name file +:+ " enviado com sucesso!")
                        success 5000 ;;
       addFileToList file (b_file_id result)
     else
       showNotification ("Erro no upload: " +:+ to_string (b_error result))
                        error 5000)
    (fun e => showNotification ("Erro no upload: " +:+ error_message e) error 5000).

(** [files.forEach]: each accepted file is handed to [uploadFile], whose
    request leaves at once; the replies are handled in the same order. *)
Fixpoint handleFiles (files : list File) : JS unit :=
  match files with
  | [] => ret tt
  | file :: rest =>
      valid <- validateFile file ;;
      (when valid then uploadFile file) ;;
      handleFiles rest
  end.

(** *** Starting an analysis *)

(** The input is found by the selector [[name="segmento"]], written
    [[name=segmento]] here. *)
Definition validateForm : JS bool :=
  let segmento := field_value env "[name=segmento]" in
  match segmento with
  | None =>
      showNotification "Por favor, preencha o segmento" warning 5000 ;;
      ret false
  | Some v =>
      match trim v with
      | [] =>
          showNotification "Por favor, preencha o segmento" warning 5000 ;;
          write_dom (FocusOn "[name=segmento]") ;;
          ret false
      | t =>
          if (length t <? 3)%nat then
            showNotification "Segmento deve ter pelo menos 3 caracteres" warning 5000 ;;
            write_dom (FocusOn "[name=segmento]") ;;
            ret false
          else ret true
      end
  end.

Definition startAnalysis : JS unit :=
  form <- getElement env "analysisForm" ;;
  if negb form then
    showNotification "Formulário não encontrado" error 5000
  else
    valid <- validateForm ;;
    when valid then
      let data := form_entries env in
      try_catch
        (showProgress true ;;
         updateProgress (Num 0) (str "Iniciando análise...") (str EmptyString) ;;
         response <- fetch env "POST" "/api/analyze" (FormJson data) ;;
         (if ok response then ret tt
          else throw ("HTTP " +:+ http_status response +:+ ": "
                      +:+ statusText response)) ;;
         result <- json response ;;
         if b_success result then
           set_this_currentSessionId (b_session_id result) ;;
           showNotification ("Análise iniciada! Sessão: "
                             +:+ to_string (b_session_id result)) success 5000 ;;
           setItem "currentSessionId" (b_session_id result) ;;
           startProgressMonitoring
         else
           throw (or_else (b_error result) "Erro desconhecido"))
        (fun e =>
           console_log ("Erro na análise: " +:+ error_message e) ;;
           showNotification ("Erro na análise: " +:+ error_message e) error 5000 ;;
           showProgress false).

(** *** Session lifecycle *)

Definition pauseSession : JS unit :=
  sid <- gets (fun w => this_currentSessionId (this w)) ;;
  if negb (truthy sid) then
    showNotification "Nenhuma sessão ativa para pausar" warning 5000
  else
    try_catch
      (response <- fetch env "POST" ("/api/sessions/" +:+ to_string sid +:+ "/pause")
                         NoBody ;;
       result <- json response ;;
       if b_success result then
         set_this_isPaused true ;;
         stopProgressMonitoring ;;
         showNotification "Sessão pausada com sucesso" success 5000 ;;
         updateSessionControls "paused"
       else throw (Error_message (b_error result)))
      (fun e => showNotification ("Erro ao pausar: " +:+ error_message e) error 5000).

Definition resumeSession : JS unit :=
  sid <- gets (fun w => this_currentSessionId (this w)) ;;
  if negb (truthy sid) then
    showNotification "Nenhuma sessão para resumir" warning 5000
  else
    try_catch
      (response <- fetch env "POST" ("/api/sessions/" +:+ to_string sid +:+ "/resume")
                         NoBody ;;
       result <- json response ;;
       if b_success result then
         set_this_isPaused false ;;
         startProgressMonitoring ;;
         showNotification "Sessão resumida com sucesso" success 5000 ;;
         updateSessionControls "running"
       else throw (Error_message (b_error result)))
      (fun e => showNotification ("Erro ao resumir: " +:+ error_message e) error 5000).

Definition saveSession : JS unit :=
  sid <- gets (fun w => this_currentSessionId (this w)) ;;
  if negb (truthy sid) then
    showNotification "Nenhuma sessão para salvar" warning 5000
  else
    try_catch
      (response <- fetch env "POST" ("/api/sessions/" +:+ to_string sid +:+ "/save")
                         NoBody ;;
       result <- json response ;;
       if b_success result then
         showNotification "Sessão salva com sucesso" success 5000 ;;
         loadSavedSessions
       else throw (Error_message (b_error result)))
      (fun e => showNotification ("Erro ao salvar: " +:+ error_message e) error 5000).

Definition continueSession (sessionId : string) : JS unit :=
  try_catch
    (showProgress true ;;
     updateProgress (Num 0) (str "Continuando sessão...") (str EmptyString) ;;
     response <- fetch env "POST" ("/api/sessions/" +:+ sessionId +:+ "/continue")
                       NoBody ;;
     result <- json response ;;
     if b_success result then
       set_this_currentSessionId (str sessionId) ;;
       setItem "currentSessionId" (str sessionId) ;;
       showNotification "Sessão continuada com sucesso" success 5000 ;;
       startProgressMonitoring
     else throw (Error_message (b_error result)))
    (fun e =>
       showNotification ("Erro ao continuar: " +:+ error_message e) error 5000 ;;
       showProgress false).

Definition deleteSession (sessionId : string) : JS unit :=
  when confirm env "Tem certeza que deseja excluir esta sessão?" then
    try_catch
      (response <- fetch env "DELETE" ("/api/sessions/" +:+ sessionId) NoBody ;;
       result <- json response ;;
       if b_success result then
         showNotification "Sessão excluída com sucesso" success 5000 ;;
         m <- gets (fun w => this_sessions (this w)) ;;
         set_this_sessions (Map_delete sessionId m) ;;
         renderSessionsList
       else throw (Error_message (b_error result)))
      (fun e => showNotification ("Erro ao excluir: " +:+ error_message e) error 5000).

Definition clearAllSessions : JS unit :=
  when confirm env "Tem certeza que deseja excluir TODAS as sessões?" then
    try_catch
      (response <- fetch env "POST" "/api/sessions/clear" NoBody ;;
       result <- json response ;;
       if b_success result then
         showNotification "Todas as sessões foram excluídas" success 5000 ;;
         set_this_sessions [] ;;
         renderEmptySessionsList
       else throw (Error_message (b_error result)))
      (fun e =>
         showNotification ("Erro ao limpar sessões: " +:+ error_message e) error 5000).

(** *** Startup recovery *)

Definition checkSessionStatus (sessionId : string) : JS unit :=
  try_catch
    (response <- fetch env "GET" ("/api/sessions/" +:+ sessionId +:+ "/status")
                       NoBody ;;
     result <- json response ;;
     when b_success result then
       match b_session result with
       | None => throw "Cannot read properties of undefined (reading 'status')"
       | Some session =>
           if String.eqb (status session) "running" then
             showProgress true ;;
             startProgressMonitoring ;;
             updateSessionControls "running" ;;
             showNotification "Sessão anterior restaurada e em execução" info 5000
           else if String.eqb (status session) "paused" then
             updateSessionControls "paused" ;;
             showNotification "Sessão anterior encontrada (pausada)" info 5000
           else if String.eqb (status session) "completed" then
             removeItem "currentSessionId" ;;
             showNotification "Última sessão foi concluída" success 5000
           else if String.eqb (status session) "error" then
             showNotification "Última sessão teve erro" warning 5000
           else ret tt
       end)
    (fun e =>
       console_log ("Erro ao verificar status da sessão: " +:+ error_message e) ;;
       removeItem "currentSessionId").

(** [restoreLastSession], up to the form data it restores afterwards. *)
Definition restoreLastSession : JS unit :=
  lastSessionId <- getItem "currentSessionId" ;;
  when truthy lastSessionId then
    set_this_currentSessionId lastSessionId ;;
    checkSessionStatus (to_string lastSessionId).

End Methods.

End ModernAnalysisSystem.

(** ** The free functions after the class *)

Section Functions.
Variable env : Env.

(** [showNotification(message, type = 'info')]: appended to
    [#notification-container], removed after five seconds. *)
Definition showNotification (msg : string) (ty : Severity) : JS unit :=
  push_toast {| message := msg; type := ty; duration := 5000 |}.

Definition updateProgressUI (percentage : number) (step estimatedTime : value)
  : JS unit :=
  progressBar <- getElement env "progress-bar" ;;
  progressText <- getElement env "progress-text" ;;
  (when progressBar then write_dom (StyleWidthPct "progress-bar" percentage)) ;;
  when progressText then
    write_dom (ProgressText "progress-text" step (or_else estimatedTime EmptyString)).

(** The arrow function of [startProgressMonitoring(sessionId)]. *)
Definition progressTick (sessionId : string) : JS unit :=
  try_catch
    (response <- fetch env "GET" ("/api/progress/" +:+ sessionId) NoBody ;;
     data <- json response ;;
     if b_success data then
       updateProgressUI (b_percentage data) (b_current_step data)
                        (b_estimated_time data) ;;
       when b_completed data then
         h <- gets (fun w => progressInterval (globals w)) ;;
         clearInterval h ;;
         showNotification "Análise concluída!" success ;;
         section <- getElement env "progress-section" ;;
         if section then write_dom (StyleDisplay "progress-section" "none")
         else throw "Cannot read properties of null (reading 'style')"
     else throw (or_else (b_error data) "Erro ao obter progresso"))
    (fun e =>
       console_log ("Falha ao monitorar progresso: " +:+ error_message e) ;;
       h <- gets (fun w => progressInterval (globals w)) ;;
       clearInterval h ;;
       showNotification ("Erro no monitoramento: " +:+ error_message e) error).

Definition startProgressMonitoring (sessionId : string) : JS unit :=
  id <- setInterval (FunctionPoll sessionId) ;;
  set_progressInterval (Some id).

Definition addAnalysisControls : JS unit :=
  progressSection <- getElement env "progress-section" ;;
  when progressSection then
    controls <- getElement env "analysis-controls" ;;
    when negb controls then write_dom InsertAnalysisControls.

(** [startAnalysis()]: the two inputs are found by id. *)
Definition startAnalysis : JS unit :=
  let segmento := option_map trim (field_value env "segmento") in
  let produto := option_map trim (field_value env "produto") in
  match segmento, produto with
  | Some ((_ :: _) as seg), Some ((_ :: _) as prod) =>
      console_log "Iniciando análise" ;;
      startButton <- getElement env "start-analysis" ;;
      (when startButton then write_dom (ButtonDisabled "start-analysis" true)) ;;
      try_catch
        (showNotification "Iniciando análise avançada..." info ;;
         response <- fetch env "POST" "/api/analyze" (AnalysisJson seg prod) ;;
         data <- (if json_content_type response then json response
                  else console_log "Resposta não é JSON" ;;
                       throw "Servidor retornou resposta inválida") ;;
         (if ok response then ret tt
          else throw (or_else (b_error data)
                              ("Erro HTTP: " +:+ http_status response))) ;;
         if b_success data then
           showNotification "Análise iniciada com sucesso!" success ;;
           when truthy (b_session_id data) then
             set_currentSessionId (b_session_id data) ;;
             startProgressMonitoring (to_string (b_session_id data)) ;;
             progressSection <- getElement env "progress-section" ;;
             (when progressSection then
                write_dom (StyleDisplay "progress-section" "block") ;;
                write_dom (ScrollIntoView "progress-section")) ;;
             addAnalysisControls
         else throw (or_else (b_error data) "Erro desconhecido na análise"))
        (fun e =>
           console_log ("Erro na análise: " +:+ error_message e) ;;
           showNotification ("Erro: " +:+ error_message e) error ;;
           when startButton then write_dom (ButtonDisabled "start-analysis" false))
  | _, _ =>
      showNotification "Por favor, preencha todos os campos obrigatórios" error
  end.

(** ** The event loop *)

(** The callback of an active timer. *)
Definition run_callback (p : Poller) : JS unit :=
  match p with
  | MethodPoll => ModernAnalysisSystem.progressTick env
  | FunctionPoll sessionId => progressTick sessionId
  end.

(** What the page reacts to: the handlers that [setupEventListeners] and the
    rendered buttons attach, and the ticks of the timers. *)
Inductive Event : Type :=
| page_load
| submit_analysisForm
| click_pauseBtn
| click_resumeBtn
| click_saveBtn
| click_refreshSessionsBtn
| click_clearSessionsBtn
| click_continue (sessionId : string)
| click_delete (sessionId : string)
| drop_files (files : list File)
| click_start_analysis
| tick (id : positive).

Definition handle (ev : Event) : JS unit :=
  match ev with
  | page_load =>
      ModernAnalysisSystem.loadSavedSessions env ;;
      ModernAnalysisSystem.restoreLastSession env
  | submit_analysisForm => ModernAnalysisSystem.startAnalysis env
  | click_pauseBtn => ModernAnalysisSystem.pauseSession env
  | click_resumeBtn => ModernAnalysisSystem.resumeSession env
  | click_saveBtn => ModernAnalysisSystem.saveSession env
  | click_refreshSessionsBtn => ModernAnalysisSystem.loadSavedSessions env
  | click_clearSessionsBtn => ModernAnalysisSystem.clearAllSessions env
  | click_continue sessionId => ModernAnalysisSystem.continueSession env sessionId
  | click_delete sessionId => ModernAnalysisSystem.deleteSession env sessionId
  | drop_files files => ModernAnalysisSystem.handleFiles env files
  | click_start_analysis => startAnalysis
  | tick id =>
      ts <- gets (fun w => intervals (browser w)) ;;
      match List.find (fun t => Pos.eqb (fst t) id) ts with
      | Some (_, p) => run_callback p
      | None => ret tt
      end
  end.

End Functions.

(** The page when [DOMContentLoaded] builds the instance; [page_load] is
    what [init] then does to the state modelled here. *)
Definition initial (storage : gmap string string) : World :=
  {| this := ModernAnalysisSystem.constructor;
     globals := {| currentSessionId := null; progressInterval := None |};
     browser := {| localStorage := storage;
                   intervals := [];
                   next_timer := 1;
                   requests := [];
                   toasts := [];
                   dom := [];
                   console := [] |} |}.

(** The worlds a run of events reaches; each event meets its own
    environment. *)
Inductive reachable (storage : gmap string string) : World -> Prop :=
| reachable_initial : reachable storage (initial storage)
| reachable_step env ev w :
    reachable storage w -> reachable storage (exec (handle env ev) w).

(** ** Observations used in the statements *)

(** The check of [validateFile] as a boolean. *)
Definition acceptable (f : File) : bool :=
  negb (ModernAnalysisSystem.maxSize <? file_size f)%N
  && ModernAnalysisSystem.includes ModernAnalysisSystem.allowedTypes (file_type f).

(** The request [uploadFile] sends for a file. *)
Definition upload_request (f : File) : Request :=
  {| method := "POST"; url := "/api/upload"; body := Multipart f |}.

(** The world after the DOM mutations [ws], in order. *)
Definition add_dom (ws : list DomWrite) (w : World) : World :=
  with_browser (fun b =>
    {| localStorage := localStorage b;
       intervals := intervals b;
       next_timer := next_timer b;
       requests := requests b;
       toasts := toasts b;
       dom := dom b ++ ws;
       console := console b |}) w.

(** A computation that returns normally and touches nothing but the DOM. *)
Definition view_only {A : Type} (m : JS A) : Prop :=
  forall w, exists a ws, m w = (Normal a, add_dom ws w).

(** What [renderSessionsList] writes for the map [m]. *)
Definition sessions_view (env : Env) (m : list (string * Session)) : list DomWrite :=
  if has_element env "sessionsList" then
    match m with
    | [] => [SessionsEmpty]
    | _ => [SessionsGrid (map ModernAnalysisSystem.renderSessionItem m)]
    end
  else [].

(** Whether a rendered item carries a button that calls [continueSession]. *)
Definition offers_continue (item : SessionItem) : bool :=
  existsb (fun b => match onclick b with continueSession_click => true | _ => false end)
          (item_actions item).

(** The request [checkSessionStatus] sends. *)
Definition status_request (sessionId : string) : Request :=
  {| method := "GET";
     url := "/api/sessions/" +:+ sessionId +:+ "/status";
     body := NoBody |}.

(** The request failed below the application: [fetch] rejected, or the body
    did not parse as JSON. *)
Definition transport_failure (r : Reply) : bool :=
  match r with
  | NetworkError _ => true
  | Answer resp =>
      match payload resp with
      | NotJson _ => true
      | Json _ => false
      end
  end.

(** The session lifecycle actions. *)
Inductive Action : Type :=
| act_pause
| act_resume
| act_save
| act_continue (sessionId : string)
| act_delete (sessionId : string)
| act_clear_all.

Definition perform (env : Env) (a : Action) : JS unit :=
  match a with
  | act_pause => ModernAnalysisSystem.pauseSession env
  | act_resume => ModernAnalysisSystem.resumeSession env
  | act_save => ModernAnalysisSystem.saveSession env
  | act_continue sessionId => ModernAnalysisSystem.continueSession env sessionId
  | act_delete sessionId => ModernAnalysisSystem.deleteSession env sessionId
  | act_clear_all => ModernAnalysisSystem.clearAllSessions env
  end.

(** The one request of an action. *)
Definition action_request (a : Action) (w : World) : Request :=
  let current := to_string (this_currentSessionId (this w)) in
  match a with
  | act_pause =>
      {| method := "POST"; url := "/api/sessions/" +:+ current +:+ "/pause";
         body := NoBody |}
  | act_resume =>
      {| method := "POST"; url := "/api/sessions/" +:+ current +:+ "/resume";
         body := NoBody |}
  | act_save =>
      {| method := "POST"; url := "/api/sessions/" +:+ current +:+ "/save";
         body := NoBody |}
  | act_continue sessionId =>
      {| method := "POST"; url := "/api/sessions/" +:+ sessionId +:+ "/continue";
         body := NoBody |}
  | act_delete sessionId =>
      {| method := "DELETE"; url := "/api/sessions/" +:+ sessionId; body := NoBody |}
  | act_clear_all =>
      {| method := "POST"; url := "/api/sessions/clear"; body := NoBody |}
  end.

(** Whether the action gets as far as its request: pause, resume and save
    need a current session, delete and clear-all the user's confirmation. *)
Definition issues_request (env : Env) (a : Action) (w : World) : bool :=
  match a with
  | act_pause | act_resume | act_save => truthy (this_currentSessionId (this w))
  | act_continue _ => true
  | act_delete _ => confirm env "Tem certeza que deseja excluir esta sessão?"
  | act_clear_all => confirm env "Tem certeza que deseja excluir TODAS as sessões?"
  end.

(** The request failed: at the transport level, or the service answered
    without a truthy [success]. *)
Definition request_failed (r : Reply) : bool :=
  match r with
  | NetworkError _ => true
  | Answer resp =>
      match payload resp with
      | NotJson _ => true
      | Json b => negb (b_success b)
      end
  end.

(** A percentage below 0 or above 100. *)
Definition out_of_range (p : number) : Prop :=
  num_lt p (Num 0) = true \/ num_lt (Num 100) p = true.

(** A number between 0 and 100. *)
Definition in_range (n : number) : Prop :=
  match n with
  | Num q => (0 <= q)%Q /\ (q <= 100)%Q
  | _ => False
  end.

(** The percentages a sequence of DOM mutations puts on display: bar
    widths, percentage texts and page titles. *)
Definition displayed_percentages (ws : list DomWrite) : list number :=
  flat_map (fun d =>
              match d with
              | StyleWidthPct _ n | TextPct _ n | TitlePct n => [n]
              | _ => []
              end) ws.

(** The segment field fails [validateForm]: no such input, or fewer than
    three code units once trimmed. *)
Definition segment_invalid (env : Env) : bool :=
  match field_value env "[name=segmento]" with
  | None => true
  | Some v => (length (trim v) <? 3)%nat
  end.

(** The request of one poll of the method's timer. *)
Definition progress_request (w : World) : Request :=
  {| method := "GET";
     url := "/api/progress/" +:+ to_string (this_currentSessionId (this w));
     body := NoBody |}.

(** The request of [loadSavedSessions]. *)
Definition sessions_request : Request :=
  {| method := "GET"; url := "/api/sessions"; body := NoBody |}.


(** ** Sample inputs *)

Definition sample_body : Body :=
  {| b_success := true;
     b_error := undefined;
     b_session_id := str "abc123";
     b_percentage := Num 45;
     b_current_step := str "Coletando dados";
     b_estimated_time := undefined;
     b_completed := false;
     b_sessions := Some [];
     b_session := None;
     b_file_id := undefined |}.

Definition ok_response (b : Body) : Response :=
  {| ok := true;
     http_status := "200";
     statusText := "OK";
     json_content_type := true;
     payload := Json b |}.

Definition answer (b : Body) : Reply := Answer (ok_response b).

(** A page with every element in place, "Moda" typed in both inputs, a user
    who confirms, and a service that gives the reply [r] to every request. *)
Definition page (r : Reply) : Env :=
  {| has_element := fun _ => true;
     field_value := fun _ => Some (of_ascii "Moda");
     form_entries := [("segmento", of_ascii "Moda"); ("produto", of_ascii "Tenis")];
     confirm := fun _ => true;
     server := fun _ => r |}.


Definition full_pdf : File :=
  {| file_name := "full.pdf"; file_size := 10485760; file_type := "application/pdf" |}.

Definition sample_session (id st : string) : Session :=
  {| session_id := id;
     status := st;
     segmento := str "Moda";
     produto := undefined;
     etapas_salvas := 0 |}.

(** A page that holds a running and a saved session. *)
Definition two_sessions : World :=
  exec (set_this_sessions [("s1", sample_session "s1" "running");
                           ("s2", sample_session "s2" "saved")])
       (initial ∅).

(** The storage a reload finds after an analysis was started. *)
Definition stored_session : gmap string string := {[ "currentSessionId" := "abc123" ]}.

Definition refusal : Body :=
  {| b_success := false;
     b_error := str "Sessão não encontrada";
     b_session_id := undefined;
     b_percentage := NaN;
     b_current_step := undefined;
     b_estimated_time := undefined;
     b_completed := false;
     b_sessions := None;
     b_session := None;
     b_file_id := undefined |}.

(** The page while the analysis "abc123" is being polled. *)
Definition polling : World :=
  exec (ModernAnalysisSystem.startAnalysis (page (answer sample_body))) (initial ∅).

(** A page like [page], with the product input left empty. *)
Definition page_without_product (r : Reply) : Env :=
  {| has_element := fun _ => true;
     field_value := fun sel => if String.eqb sel "produto" then Some []
                               else Some (of_ascii "Moda");
     form_entries := [("segmento", of_ascii "Moda"); ("produto", [])];
     confirm := fun _ => true;
     server := fun _ => r |}.

(** A page like [page], with "ab" typed as the segment. *)
Definition page_short_segment (r : Reply) : Env :=
  {| has_element := fun _ => true;
     field_value := fun _ => Some (of_ascii " ab ");
     form_entries := [("segmento", of_ascii " ab "); ("produto", of_ascii "Tenis")];
     confirm := fun _ => true;
     server := fun _ => r |}.

Definition completed_body : Body :=
  {| b_success := true;
     b_error := undefined;
     b_session_id := undefined;
     b_percentage := Num 100;
     b_current_step := undefined;
     b_estimated_time := undefined;
     b_completed := true;
     b_sessions := Some [];
     b_session := None;
     b_file_id := undefined |}.

(** The page while the free function polls the analysis "abc123", with the
    identifier of an earlier session still in storage. *)
Definition function_polling : World :=
  exec (startAnalysis (page (answer sample_body))) (initial stored_session).

(** A user who declines every confirmation. *)
Definition page_declining (r : Reply) : Env :=
  {| has_element := fun _ => true;
     field_value := fun _ => Some (of_ascii "Moda");
     form_entries := [("segmento", of_ascii "Moda"); ("produto", of_ascii "Tenis")];
     confirm := fun _ => false;
     server := fun _ => r |}.

(** ** More of the code *)

(** [Map.prototype.get]. *)
Definition Map_get (k : string) (m : list (string * Session)) : option Session :=
  option_map snd (List.find (fun e => String.eqb (fst e) k) m).

(** The decimal digits of a length, as a template literal prints it. *)
Definition decimal (n : nat) : string := NilZero.string_of_uint (Nat.to_uint n).

(** The free function [handleFiles(files)], the handler that
    [initializeFileUpload] attaches to [#file-input]; [files] may be
    [null]. The upload itself is left for later in the source. *)
Definition handleFiles (files : option (list File)) : JS unit :=
  console_log "Arquivos selecionados" ;;
  match files with
  | None | Some [] => showNotification "Nenhum arquivo selecionado" warning
  | Some l =>
      showNotification (decimal (length l) +:+ " arquivo(s) selecionado(s)") info
  end.

(** ** Frames and invariants *)

(** Every run of [m] relates the world it starts in to the one it leaves,
    whether it returns or throws. *)
Definition frames (R : World -> World -> Prop) {A : Type} (m : JS A) : Prop :=
  forall w, R w (snd (m w)).

(** The relation of an invariant. *)
Definition keeps (P : World -> Prop) : World -> World -> Prop :=
  fun w w' => P w -> P w'.

(** The relation of a field that stays as it is. *)
Definition same {B : Type} (f : World -> B) : World -> World -> Prop :=
  fun w w' => f w' = f w.

(** The timers are well formed: handles are distinct and below the next one
    to be handed out, [this.progressInterval] names an active timer of the
    method's poll, and the module-level [progressInterval] a handle already
    handed out that no timer of the method's poll bears. *)
Definition timers_wf (w : World) : Prop :=
  NoDup (map fst (intervals (browser w))) /\
  (forall id, In id (active_timers w) -> (id < next_timer (browser w))%positive) /\
  (forall id, this_progressInterval (this w) = Some id ->
              In (id, MethodPoll) (intervals (browser w))) /\
  (forall id, progressInterval (globals w) = Some id ->
              (id < next_timer (browser w))%positive /\
              ~ In (id, MethodPoll) (intervals (browser w))).

(** A session map is well formed: keys are distinct and each session sits
    under its own identifier. *)
Definition map_wf (m : list (string * Session)) : Prop :=
  NoDup (map fst m) /\ forall k s, In (k, s) m -> session_id s = k.


(** The request of the method [startAnalysis]. *)
Definition analysis_request (env : Env) : Request :=
  {| method := "POST"; url := "/api/analyze"; body := FormJson (form_entries env) |}.

(** A reply that [startAnalysis] and [loadSavedSessions] take as a failure:
    the transport failed, the HTTP status is not ok, the body does not
    parse, or [success] is not truthy. *)
Definition unsuccessful (r : Reply) : bool :=
  match r with
  | NetworkError _ => true
  | Answer resp =>
      negb (ok resp) ||
      match payload resp with
      | NotJson _ => true
      | Json b => negb (b_success b)
      end
  end.

(** The body of a reply that went through: HTTP ok, JSON, truthy
    [success]. *)
Definition successful (r : Reply) : option Body :=
  match r with
  | NetworkError _ => None
  | Answer resp =>
      if ok resp then
        match payload resp with
        | Json b => if b_success b then Some b else None
        | NotJson _ => None
        end
      else None
  end.

(** The body of a reply whose JSON has a truthy [success], whatever the
    HTTP status: what the lifecycle actions and the polls look at. *)
Definition accepted (r : Reply) : option Body :=
  match r with
  | NetworkError _ => None
  | Answer resp =>
      match payload resp with
      | Json b => if b_success b then Some b else None
      | NotJson _ => None
      end
  end.

(** The request of one poll of the free function's timer. *)
Definition function_progress_request (sessionId : string) : Request :=
  {| method := "GET"; url := "/api/progress/" +:+ sessionId; body := NoBody |}.

(** A reply on which the free function's poll goes on: JSON with a truthy
    [success] and no truthy [completed]. *)
Definition in_progress (r : Reply) : bool :=
  match accepted r with
  | Some b => negb (b_completed b)
  | None => false
  end.

(** Both inputs of the free function [startAnalysis] are filled. *)
Definition both_filled (env : Env) : bool :=
  match option_map trim (field_value env "segmento"),
        option_map trim (field_value env "produto") with
  | Some (_ :: _), Some (_ :: _) => true
  | _, _ => false
  end.

(** A reply that the free function [startAnalysis] takes as a failure. *)
Definition function_unsuccessful (r : Reply) : bool :=
  match r with
  | NetworkError _ => true
  | Answer resp =>
      negb (json_content_type resp) || negb (ok resp) ||
      match payload resp with
      | NotJson _ => true
      | Json b => negb (b_success b)
      end
  end.

(** The handlers that belong to the class: all but the click on the free
    function's start button and the timer ticks. *)
Definition method_event (ev : Event) : bool :=
  match ev with
  | click_start_analysis | tick _ => false
  | _ => true
  end.

(** The request of the free function [startAnalysis]: the two inputs,
    trimmed. *)
Definition function_analysis_request (env : Env) : Request :=
  let trimmed sel := match field_value env sel with
                     | Some v => trim v
                     | None => []
                     end in
  {| method := "POST"; url := "/api/analyze";
     body := AnalysisJson (trimmed "segmento") (trimmed "produto") |}.

(** The body of a reply that the free function [startAnalysis] takes as a
    success: JSON content type, a body that parses, HTTP ok, truthy
    [success]. *)
Definition function_successful (r : Reply) : option Body :=
  match r with
  | NetworkError _ => None
  | Answer resp =>
      if json_content_type resp then
        match payload resp with
        | Json b => if ok resp then if b_success b then Some b else None else None
        | NotJson _ => None
        end
      else None
  end.

(** ** More sample inputs *)

Definition small_txt : File :=
  {| file_name := "notes.txt"; file_size := 12; file_type := "text/plain" |}.

Definition picture : File :=
  {| file_name := "photo.png"; file_size := 2048; file_type := "image/png" |}.

Definition status_body (st : string) : Body :=
  {| b_success := true;
     b_error := undefined;
     b_session_id := undefined;
     b_percentage := NaN;
     b_current_step := undefined;
     b_estimated_time := undefined;
     b_completed := false;
     b_sessions := None;
     b_session := Some (sample_session "abc123" st);
     b_file_id := undefined |}.

Definition list_body (l : list Session) : Body :=
  {| b_success := true;
     b_error := undefined;
     b_session_id := undefined;
     b_percentage := NaN;
     b_current_step := undefined;
     b_estimated_time := undefined;
     b_completed := false;
     b_sessions := Some l;
     b_session := None;
     b_file_id := undefined |}.

Definition no_session_id : Body :=
  {| b_success := true;
     b_error := undefined;
     b_session_id := undefined;
     b_percentage := NaN;
     b_current_step := undefined;
     b_estimated_time := undefined;
     b_completed := false;
     b_sessions := None;
     b_session := None;
     b_file_id := undefined |}.

(** * Properties *)

(** ** Reasoning about computations *)

(** One step of symbolic execution: the monad and the field updates are
    unfolded, the methods stay folded. *)
Ltac js_run :=
  cbv [exec bind ret gets modify throw try_catch fetch json getElement
       setInterval clearInterval getItem setItem removeItem
       set_this_currentSessionId set_this_progressInterval set_this_sessions
       set_this_isPaused push_this_notifications set_currentSessionId
       set_progressInterval set_localStorage set_intervals push_request
       push_toast write_dom console_log with_this with_globals with_browser
       ModernAnalysisSystem.showNotification showNotification];
  cbn [fst snd this globals browser
       this_currentSessionId this_progressInterval this_sessions this_isPaused
       this_notifications currentSessionId progressInterval
       localStorage intervals next_timer requests toasts dom console].

Lemma includes_In (l : list string) (s : string) :
  ModernAnalysisSystem.includes l s = true <-> In s l.
Proof.
  unfold ModernAnalysisSystem.includes. rewrite existsb_exists. split.
  - intros (x & Hx & Heq). apply String.eqb_eq in Heq. now subst.
  - intros H. exists s. split; [assumption | apply String.eqb_refl].
Qed.

(** ** File upload (C8, C10) *)

Module Upload.
Import ModernAnalysisSystem.

Lemma validateFile_accepts (f : File) (w : World) :
  acceptable f = true -> validateFile f w = (Normal true, w).
Proof.
  unfold acceptable, validateFile.
  destruct (maxSize <? file_size f)%N; [discriminate |].
  destruct (includes allowedTypes (file_type f)); [reflexivity | discriminate].
Qed.

Lemma validateFile_rejects (f : File) (w : World) :
  acceptable f = false ->
  exists msg,
    validateFile f w = (Normal false, exec (showNotification msg warning 5000) w).
Proof.
  unfold acceptable, validateFile.
  destruct (maxSize <? file_size f)%N; [intros _; eexists; reflexivity |].
  destruct (includes allowedTypes (file_type f)); [discriminate |].
  intros _. eexists. reflexivity.
Qed.

Lemma showNotification_requests msg ty dur (w : World) :
  requests (browser (exec (showNotification msg ty dur) w)) = requests (browser w).
Proof. reflexivity. Qed.

(** Whatever the service answers, [uploadFile] returns normally and has put
    exactly its one request on the wire. *)
Lemma uploadFile_requests (env : Env) (f : File) (w : World) :
  exists w',
    uploadFile env f w = (Normal tt, w') /\
    requests (browser w') = requests (browser w) ++ [upload_request f].
Proof.
  unfold uploadFile, addFileToList. js_run.
  destruct (server env _) as [r | msg]; [| eexists; split; reflexivity].
  destruct (payload r) as [b | e]; [| eexists; split; reflexivity].
  destruct (b_success b); eexists; split; reflexivity.
Qed.

Lemma handleFiles_requests (env : Env) (files : list File) :
  forall w, exists w',
    handleFiles env files w = (Normal tt, w') /\
    requests (browser w') =
      requests (browser w) ++ map upload_request (List.filter acceptable files).
Proof.
  induction files as [| f rest IH]; intros w.
  - exists w. split; [reflexivity |]. simpl. now rewrite app_nil_r.
  - cbn [handleFiles List.filter]. unfold bind at 1.
    destruct (acceptable f) eqn:Hf.
    + rewrite (validateFile_accepts f w Hf). unfold bind at 1.
      destruct (uploadFile_requests env f w) as (w1 & -> & Hreq).
      destruct (IH w1) as (w2 & -> & Hreq2).
      exists w2. split; [reflexivity |].
      rewrite Hreq2, Hreq. cbn [map]. now rewrite <- app_assoc.
    + destruct (validateFile_rejects f w Hf) as (msg & ->).
      unfold bind at 1. unfold ret at 1.
      destruct (IH (exec (showNotification msg warning 5000) w)) as (w2 & -> & Hreq2).
      exists w2. split; [reflexivity |].
      now rewrite Hreq2, showNotification_requests.
Qed.


End Upload.



(** C10: a file of exactly 10 * 1024 * 1024 bytes with an allowed MIME type
    passes [validateFile], with no notification, and [handleFiles] sends its
    upload request: only a size strictly above the ceiling is rejected. *)
Theorem file_of_exactly_10MiB_is_uploaded (env : Env) (f : File) (w : World) :
  file_size f = (10 * 1024 * 1024)%N ->
  In (file_type f)
     ["application/pdf"; "text/plain"; "application/msword";
      "application/vnd.openxmlformats-officedocument.wordprocessingml.document"] ->
  ModernAnalysisSystem.validateFile f w = (Normal true, w) /\
  requests (browser (exec (ModernAnalysisSystem.handleFiles env [f]) w)) =
    requests (browser w) ++ [upload_request f].
Proof.
  intros Hsize Htype.
  assert (Hf : acceptable f = true).
  { unfold acceptable. rewrite Hsize. apply andb_true_intro. split.
    - reflexivity.
    - now apply includes_In. }
  split.
  - now apply Upload.validateFile_accepts.
  - destruct (Upload.handleFiles_requests env [f] w) as (w' & Hrun & Hreq).
    unfold exec. rewrite Hrun. cbn [snd]. rewrite Hreq.
    cbn [List.filter]. now rewrite Hf.
Qed.

Lemma file_of_exactly_10MiB_is_uploaded_witness :
  ModernAnalysisSystem.validateFile full_pdf (initial ∅) = (Normal true, initial ∅) /\
  requests (browser (exec (ModernAnalysisSystem.handleFiles
                             (page (answer sample_body)) [full_pdf])
                          (initial ∅))) =
    requests (browser (initial ∅)) ++ [upload_request full_pdf].
Proof.
  apply (file_of_exactly_10MiB_is_uploaded (page (answer sample_body)) full_pdf (initial ∅)).
  - reflexivity.
  - simpl. left. reflexivity.
Defined.

(** ** Computations that only touch the view *)

Lemma add_dom_nil (w : World) : add_dom [] w = w.
Proof.
  destruct w as [t g b]. destruct b. unfold add_dom, with_browser. cbn.
  now rewrite app_nil_r.
Qed.

Lemma add_dom_app (ws1 ws2 : list DomWrite) (w : World) :
  add_dom ws2 (add_dom ws1 w) = add_dom (ws1 ++ ws2) w.
Proof. unfold add_dom, with_browser. cbn. now rewrite app_assoc. Qed.

Lemma view_only_ret {A : Type} (a : A) : view_only (ret a).
Proof. intros w. exists a, []. now rewrite add_dom_nil. Qed.

Lemma view_only_write_dom (d : DomWrite) : view_only (write_dom d).
Proof. intros w. exists tt, [d]. reflexivity. Qed.

Lemma view_only_getElement (env : Env) (sel : string) : view_only (getElement env sel).
Proof. apply view_only_ret. Qed.

Lemma view_only_bind {A B : Type} (m : JS A) (k : A -> JS B) :
  view_only m -> (forall a, view_only (k a)) -> view_only (bind m k).
Proof.
  intros Hm Hk w. destruct (Hm w) as (a & ws1 & Hrun).
  destruct (Hk a (add_dom ws1 w)) as (b & ws2 & Hrun2).
  exists b, (ws1 ++ ws2). unfold bind. rewrite Hrun, Hrun2.
  now rewrite add_dom_app.
Qed.

Lemma view_only_if {A : Type} (c : bool) (m1 m2 : JS A) :
  view_only m1 -> view_only m2 -> view_only (if c then m1 else m2).
Proof. now destruct c. Qed.

Create HintDb view.
#[local] Hint Resolve view_only_ret view_only_write_dom view_only_getElement
  view_only_if : view.
#[local] Hint Extern 2 (view_only (bind _ _)) =>
  apply view_only_bind; [| intros ?] : view.

Lemma showProgress_view (env : Env) (show : bool) :
  view_only (ModernAnalysisSystem.showProgress env show).
Proof. unfold ModernAnalysisSystem.showProgress. auto 10 with view. Qed.

Lemma updateSessionControls_view (env : Env) (st : string) :
  view_only (ModernAnalysisSystem.updateSessionControls env st).
Proof.
  unfold ModernAnalysisSystem.updateSessionControls. cbv zeta. auto 10 with view.
Qed.

Lemma updateProgress_view (env : Env) (p : number) (msg est : value) :
  view_only (ModernAnalysisSystem.updateProgress env p msg est).
Proof. unfold ModernAnalysisSystem.updateProgress. auto 20 with view. Qed.

Lemma renderEmptySessionsList_view (env : Env) :
  view_only (ModernAnalysisSystem.renderEmptySessionsList env).
Proof. unfold ModernAnalysisSystem.renderEmptySessionsList. auto 10 with view. Qed.

(** [renderSessionsList] writes the view of the current map, and only that. *)
Lemma renderSessionsList_writes (env : Env) (w : World) :
  ModernAnalysisSystem.renderSessionsList env w =
    (Normal tt, add_dom (sessions_view env (this_sessions (this w))) w).
Proof.
  unfold ModernAnalysisSystem.renderSessionsList,
    ModernAnalysisSystem.renderEmptySessionsList, sessions_view.
  js_run. destruct (has_element env "sessionsList").
  - destruct (this_sessions (this w)); reflexivity.
  - now rewrite add_dom_nil.
Qed.

Lemma renderSessionsList_view (env : Env) :
  view_only (ModernAnalysisSystem.renderSessionsList env).
Proof. intros w. rewrite renderSessionsList_writes. eauto. Qed.

#[local] Hint Resolve showProgress_view updateSessionControls_view
  updateProgress_view renderEmptySessionsList_view renderSessionsList_view : view.

(** ** The session list (C7) *)

Lemma offers_continue_item (sessionId : string) (session : Session) :
  offers_continue (ModernAnalysisSystem.renderSessionItem (sessionId, session)) =
    ModernAnalysisSystem.includes ["paused"; "error"; "saved"] (status session).
Proof.
  unfold offers_continue. cbn [ModernAnalysisSystem.renderSessionItem item_actions].
  unfold ModernAnalysisSystem.getSessionActions.
  destruct (ModernAnalysisSystem.includes _ (status session));
    destruct (String.eqb (status session) "completed"); reflexivity.
Qed.

Lemma rendered_items (m : list (string * Session)) :
  Forall2
    (fun e item =>
       item_select item = fst e /\
       (offers_continue item = true <->
        In (status (snd e)) ["paused"; "error"; "saved"]))
    m (map ModernAnalysisSystem.renderSessionItem m).
Proof.
  induction m as [| [sid s] m IH]; cbn [map]; constructor; [| exact IH].
  split; [reflexivity |]. rewrite offers_continue_item. apply includes_In.
Qed.

(** C7: in the list that [renderSessionsList] writes, an item offers the
    continue button exactly when the status of its session is paused, error
    or saved; the items follow the sessions of the map, in order. *)
Theorem continue_offered_iff_resumable
    (env : Env) (w : World) (items : list SessionItem) :
  dom (browser (exec (ModernAnalysisSystem.renderSessionsList env) w)) =
    dom (browser w) ++ [SessionsGrid items] ->
  Forall2
    (fun e item =>
       item_select item = fst e /\
       (offers_continue item = true <->
        In (status (snd e)) ["paused"; "error"; "saved"]))
    (this_sessions (this w)) items.
Proof.
  unfold exec. rewrite renderSessionsList_writes. cbn [snd].
  unfold add_dom, with_browser. cbn [browser dom]. intros H.
  apply app_inv_head in H. unfold sessions_view in H.
  destruct (has_element env "sessionsList"); [| discriminate].
  destruct (this_sessions (this w)) as [| e m]; [discriminate |].
  injection H as <-. apply rendered_items.
Qed.

Lemma continue_offered_iff_resumable_witness :
  Forall2
    (fun e item =>
       item_select item = fst e /\
       (offers_continue item = true <->
        In (status (snd e)) ["paused"; "error"; "saved"]))
    (this_sessions (this two_sessions))
    (map ModernAnalysisSystem.renderSessionItem (this_sessions (this two_sessions))).
Proof.
  apply (continue_offered_iff_resumable (page (answer sample_body)) two_sessions).
  reflexivity.
Defined.

(** ** Startup recovery (C9) *)

Lemma checkSessionStatus_transport_failure (env : Env) (sessionId : string) (w : World) :
  transport_failure (server env (requests (browser w) ++ [status_request sessionId])) = true ->
  localStorage (browser (exec (ModernAnalysisSystem.checkSessionStatus env sessionId) w)) =
    delete "currentSessionId" (localStorage (browser w)).
Proof.
  unfold ModernAnalysisSystem.checkSessionStatus, transport_failure, status_request.
  js_run. destruct (server env _) as [r | msg]; [| reflexivity].
  destruct (payload r) as [b | e]; [discriminate | reflexivity].
Qed.

(** C9: at startup, when the status request for the persisted session
    identifier fails at the transport level ([fetch] rejects or the body does
    not parse), [restoreLastSession] leaves no [currentSessionId] in
    [localStorage], while the instance keeps the identifier it read. *)
Theorem failed_status_request_forgets_session (env : Env) (w : World) (sid : string) :
  localStorage (browser w) !! "currentSessionId" = Some sid ->
  sid <> EmptyString ->
  transport_failure (server env (requests (browser w) ++ [status_request sid])) = true ->
  let w' := exec (ModernAnalysisSystem.restoreLastSession env) w in
  localStorage (browser w') !! "currentSessionId" = None /\
  this_currentSessionId (this w') = str sid.
Proof.
  intros Hstored Hsid Hfail w'. subst w'.
  unfold ModernAnalysisSystem.restoreLastSession.
  cbv [exec bind getItem gets]. cbn [fst snd]. rewrite Hstored.
  assert (Htruthy : truthy (str sid) = true).
  { cbn. apply negb_true_iff. now apply String.eqb_neq. }
  rewrite Htruthy. cbv [set_this_currentSessionId modify]. cbn [to_string].
  set (w1 := with_this _ w).
  change (snd (ModernAnalysisSystem.checkSessionStatus env sid w1))
    with (exec (ModernAnalysisSystem.checkSessionStatus env sid) w1).
  split.
  - rewrite checkSessionStatus_transport_failure by exact Hfail.
    apply lookup_delete_eq.
  - unfold ModernAnalysisSystem.checkSessionStatus. js_run.
    destruct (server env _) as [r | msg]; [| reflexivity].
    destruct (payload r) as [b | e] eqn:Hp; [| reflexivity].
    unfold transport_failure in Hfail. rewrite Hp in Hfail. discriminate.
Qed.

Lemma failed_status_request_forgets_session_witness :
  let w' := exec (ModernAnalysisSystem.restoreLastSession
                    (page (NetworkError "Failed to fetch")))
                 (initial stored_session) in
  localStorage (browser w') !! "currentSessionId" = None /\
  this_currentSessionId (this w') = str "abc123".
Proof.
  apply (failed_status_request_forgets_session
           (page (NetworkError "Failed to fetch")) (initial stored_session) "abc123").
  - reflexivity.
  - discriminate.
  - reflexivity.
Defined.

(** The other way the identifier is forgotten at startup: the service reports
    the session as completed. *)
Lemma completed_status_forgets_session
    (env : Env) (sessionId : string) (w : World) (r : Response) (b : Body) (s : Session) :
  server env (requests (browser w) ++ [status_request sessionId]) = Answer r ->
  payload r = Json b ->
  b_success b = true ->
  b_session b = Some s ->
  status s = "completed" ->
  localStorage (browser (exec (ModernAnalysisSystem.checkSessionStatus env sessionId) w)) =
    delete "currentSessionId" (localStorage (browser w)).
Proof.
  intros Hr Hp Hb Hs Hst.
  unfold ModernAnalysisSystem.checkSessionStatus, status_request in *.
  js_run. rewrite Hr, Hp, Hb, Hs, Hst. reflexivity.
Qed.

(** Replaces a call of a view-only method by its outcome. *)
Ltac js_view :=
  match goal with
  | |- context [ModernAnalysisSystem.showProgress ?e ?s ?w] =>
      destruct (showProgress_view e s w) as ([] & ? & ->)
  | |- context [ModernAnalysisSystem.updateProgress ?e ?p ?m ?t ?w] =>
      destruct (updateProgress_view e p m t w) as ([] & ? & ->)
  | |- context [ModernAnalysisSystem.updateSessionControls ?e ?s ?w] =>
      destruct (updateSessionControls_view e s w) as ([] & ? & ->)
  | |- context [ModernAnalysisSystem.renderEmptySessionsList ?e ?w] =>
      destruct (renderEmptySessionsList_view e w) as ([] & ? & ->)
  | |- context [ModernAnalysisSystem.renderSessionsList ?e ?w] =>
      destruct (renderSessionsList_view e w) as ([] & ? & ->)
  end; cbv [add_dom]; js_run.

(** ** Failed lifecycle actions (C5) *)

(** C5: when the request of a lifecycle action (pause, resume, save,
    continue, delete, clear-all) fails, at the transport level or with a
    reply whose [success] is not truthy, one error notification is shown and
    the session map, the current session identifier, the paused flag, the
    polling timer (its handle and the active timers) and [localStorage] are
    as they were before the action. *)
Theorem failed_action_leaves_state_untouched (env : Env) (a : Action) (w : World) :
  issues_request env a w = true ->
  request_failed (server env (requests (browser w) ++ [action_request a w])) = true ->
  let w' := exec (perform env a) w in
  (exists msg,
      this_notifications (this w') =
        this_notifications (this w)
          ++ [{| message := msg; type := error; duration := 5000 |}]) /\
  this_sessions (this w') = this_sessions (this w) /\
  this_currentSessionId (this w') = this_currentSessionId (this w) /\
  this_isPaused (this w') = this_isPaused (this w) /\
  this_progressInterval (this w') = this_progressInterval (this w) /\
  intervals (browser w') = intervals (browser w) /\
  localStorage (browser w') = localStorage (browser w).
Proof.
  intros Hreq Hfail w'. subst w'.
  destruct a; cbn [perform issues_request action_request] in *;
    unfold ModernAnalysisSystem.pauseSession, ModernAnalysisSystem.resumeSession,
      ModernAnalysisSystem.saveSession, ModernAnalysisSystem.continueSession,
      ModernAnalysisSystem.deleteSession, ModernAnalysisSystem.clearAllSessions;
    js_run; try rewrite Hreq; repeat js_view; cbn [negb];
    unfold request_failed in Hfail;
    (destruct (server env _) as [r | msg];
     [ destruct (payload r) as [b | e];
       [ apply negb_true_iff in Hfail; rewrite Hfail |] |]);
    js_run; repeat js_view; repeat split; eauto.
Qed.

Lemma failed_action_leaves_state_untouched_witness :
  let w' := exec (perform (page (answer refusal)) act_pause) polling in
  (exists msg,
      this_notifications (this w') =
        this_notifications (this polling)
          ++ [{| message := msg; type := error; duration := 5000 |}]) /\
  this_sessions (this w') = this_sessions (this polling) /\
  this_currentSessionId (this w') = this_currentSessionId (this polling) /\
  this_isPaused (this w') = this_isPaused (this polling) /\
  this_progressInterval (this w') = this_progressInterval (this polling) /\
  intervals (browser w') = intervals (browser polling) /\
  localStorage (browser w') = localStorage (browser polling).
Proof.
  apply (failed_action_leaves_state_untouched (page (answer refusal)) act_pause polling).
  - reflexivity.
  - reflexivity.
Defined.

(** The failed pause of the specification's example: the session stays
    running for the client, which keeps polling it. *)
Example failed_pause_keeps_polling :
  let w' := exec (perform (page (answer refusal)) act_pause) polling in
  this_isPaused (this w') = false /\
  this_progressInterval (this w') = Some 1%positive /\
  active_timers w' = [1%positive] /\
  map type (this_notifications (this w')) = [success; error].
Proof. repeat split. Qed.

(** ** The progress display (C6) *)

Lemma num_lt_Num (x y : Q) : num_lt (Num x) (Num y) = true <-> (x < y)%Q.
Proof.
  cbn. rewrite negb_true_iff, <- not_true_iff_false, Qle_bool_iff. split.
  - apply Qnot_le_lt.
  - apply Qlt_not_le.
Qed.

(** The width that [updateProgress] computes for a percentage: 0 below the
    range, 100 above it. *)
Lemma clamp_out_of_range (p : number) :
  out_of_range p ->
  (num_lt p (Num 0) = true /\ Math_max (Num 0) (Math_min (Num 100) p) = Num 0) \/
  (num_lt (Num 100) p = true /\ Math_max (Num 0) (Math_min (Num 100) p) = Num 100).
Proof.
  intros [Hlow | Hhigh].
  - left. split; [assumption |].
    destruct p as [q | | |]; try discriminate; [| reflexivity].
    apply num_lt_Num in Hlow.
    assert (H1 : num_lt (Num q) (Num 100) = true) by (apply num_lt_Num; lra).
    assert (H2 : num_lt (Num 0) (Num q) = false).
    { apply not_true_iff_false. rewrite num_lt_Num. lra. }
    unfold Math_min. rewrite H1. unfold Math_max. now rewrite H2.
  - right. split; [assumption |].
    destruct p as [q | | |]; try discriminate; [| reflexivity].
    apply num_lt_Num in Hhigh.
    assert (H1 : num_lt (Num q) (Num 100) = false).
    { apply not_true_iff_false. rewrite num_lt_Num. lra. }
    unfold Math_min. rewrite H1. reflexivity.
Qed.

(** Whatever number comes in, short of NaN, the width is within the range. *)
Lemma clamp_in_range (p : number) :
  p <> NaN -> in_range (Math_max (Num 0) (Math_min (Num 100) p)).
Proof.
  intros Hp. destruct p as [q | | |]; [| | | congruence].
  2: { change (in_range (Num 100)). cbn [in_range]. lra. }
  2: { change (in_range (Num 0)). cbn [in_range]. lra. }
  unfold Math_min. destruct (num_lt (Num q) (Num 100)) eqn:H1.
  - unfold Math_max. destruct (num_lt (Num 0) (Num q)) eqn:H2.
    + apply num_lt_Num in H1, H2. cbn [in_range]. lra.
    + cbn [in_range]. clear. lra.
  - change (in_range (Num 100)). cbn [in_range]. lra.
Qed.

(** Every bar width present after [updateProgress] was there before or is
    the clamped percentage. *)
Lemma updateProgress_widths
    (env : Env) (p : number) (msg est : value) (w : World) (sel : string) (n : number) :
  In (StyleWidthPct sel n)
     (dom (browser (exec (ModernAnalysisSystem.updateProgress env p msg est) w))) ->
  In (StyleWidthPct sel n) (dom (browser w)) \/
  n = Math_max (Num 0) (Math_min (Num 100) p).
Proof.
  unfold ModernAnalysisSystem.updateProgress. js_run.
  destruct (has_element env ".progress-fill");
    destruct (has_element env ".progress-percentage");
    destruct (has_element env ".progress-status" && truthy msg);
    js_run; rewrite ?in_app_iff; cbn [In]; intros H;
    repeat match type of H with
           | _ \/ _ => destruct H as [H | H]
           end;
    try discriminate; try contradiction; auto.
  all: injection H as _ <-; auto.
Qed.

(** C6, as the code has it: for a percentage outside [0,100] the width that
    [updateProgress] gives the progress bar is clamped, to 0 below the range
    and to 100 above it. *)
Theorem progress_bar_width_is_clamped
    (env : Env) (p : number) (msg est : value) (w : World) (sel : string) (n : number) :
  out_of_range p ->
  In (StyleWidthPct sel n)
     (dom (browser (exec (ModernAnalysisSystem.updateProgress env p msg est) w))) ->
  In (StyleWidthPct sel n) (dom (browser w)) \/
  (in_range n /\
   ((num_lt p (Num 0) = true /\ n = Num 0) \/
    (num_lt (Num 100) p = true /\ n = Num 100))).
Proof.
  intros Hout Hin. apply updateProgress_widths in Hin as [Hold | ->]; [now left |].
  right. split.
  - apply clamp_in_range. destruct Hout as [H | H]; intros ->; discriminate.
  - destruct (clamp_out_of_range p Hout) as [[H ->] | [H ->]]; auto.
Qed.

Lemma progress_bar_width_is_clamped_witness :
  In (StyleWidthPct ".progress-fill" (Num 100)) (dom (browser (initial ∅))) \/
  (in_range (Num 100) /\
   ((num_lt (Num 150) (Num 0) = true /\ Num 100 = Num 0) \/
    (num_lt (Num 100) (Num 150) = true /\ Num 100 = Num 100))).
Proof.
  apply (progress_bar_width_is_clamped
           (page (answer sample_body)) (Num 150) (str "Coletando dados") undefined
           (initial ∅) ".progress-fill" (Num 100)).
  - right. reflexivity.
  - left. reflexivity.
Defined.

(** C6 as stated fails: at 150 the percentage text (and the page title) that
    [updateProgress] writes is 150, which is not within [0,100]. *)
Lemma percentage_text_is_not_clamped :
  out_of_range (Num 150) /\
  ~ (forall n,
        In n (displayed_percentages
                (dom (browser (exec (ModernAnalysisSystem.updateProgress
                                       (page (answer sample_body)) (Num 150)
                                       (str "Coletando dados") undefined)
                                    (initial ∅))))) ->
        in_range n).
Proof.
  split; [right; reflexivity |].
  intros H. specialize (H (Num 150)).
  assert (Hshown : in_range (Num 150)) by (apply H; right; left; reflexivity).
  destruct Hshown as [_ Hle]. revert Hle. apply Qlt_not_le. reflexivity.
Qed.

(** What is on display after [updateProgress] at 150: the bar at 100, the
    text and the title at 150. *)
Example updateProgress_at_150 :
  dom (browser (exec (ModernAnalysisSystem.updateProgress
                        (page (answer sample_body)) (Num 150)
                        (str "Coletando dados") undefined)
                     (initial ∅))) =
    [StyleWidthPct ".progress-fill" (Num 100);
     TextPct ".progress-percentage" (Num 150);
     StatusLine ".progress-status" "Coletando dados" None;
     TitlePct (Num 150)].
Proof. reflexivity. Qed.

(** The free function [updateProgressUI] does not clamp the width either. *)
Example updateProgressUI_at_150 :
  dom (browser (exec (updateProgressUI (page (answer sample_body)) (Num 150)
                                       (str "Coletando dados") undefined)
                     (initial ∅))) =
    [StyleWidthPct "progress-bar" (Num 150);
     ProgressText "progress-text" (str "Coletando dados") EmptyString].
Proof. reflexivity. Qed.

(** ** Form validation (C2) *)

Lemma validateForm_rejects (env : Env) (w : World) :
  segment_invalid env = true ->
  exists msg w',
    ModernAnalysisSystem.validateForm env w = (Normal false, w') /\
    requests (browser w') = requests (browser w) /\
    this_notifications (this w') =
      this_notifications (this w)
        ++ [{| message := msg; type := warning; duration := 5000 |}].
Proof.
  unfold segment_invalid, ModernAnalysisSystem.validateForm.
  destruct (field_value env "[name=segmento]") as [v |].
  - destruct (trim v) as [| c t].
    + intros _. js_run. eauto.
    + intros ->. js_run. eauto.
  - intros _. js_run. eauto.
Qed.

(** C2, as the code has it: submitting the form with a segment input that is
    missing, blank or shorter than three characters once trimmed shows one
    warning notification and sends no request. *)
Theorem invalid_segment_is_not_submitted (env : Env) (w : World) :
  has_element env "analysisForm" = true ->
  segment_invalid env = true ->
  let w' := exec (ModernAnalysisSystem.startAnalysis env) w in
  requests (browser w') = requests (browser w) /\
  exists msg,
    this_notifications (this w') =
      this_notifications (this w)
        ++ [{| message := msg; type := warning; duration := 5000 |}].
Proof.
  intros Hform Hseg w'. subst w'.
  destruct (validateForm_rejects env w Hseg) as (msg & w1 & Hrun & Hreq & Hnote).
  unfold ModernAnalysisSystem.startAnalysis.
  cbv [exec bind getElement ret]. rewrite Hform. cbn [negb]. rewrite Hrun.
  cbn [snd]. eauto.
Qed.

Lemma invalid_segment_is_not_submitted_witness :
  let w' := exec (ModernAnalysisSystem.startAnalysis
                    (page_short_segment (answer sample_body)))
                 (initial ∅) in
  requests (browser w') = requests (browser (initial ∅)) /\
  exists msg,
    this_notifications (this w') =
      this_notifications (this (initial ∅))
        ++ [{| message := msg; type := warning; duration := 5000 |}].
Proof.
  apply (invalid_segment_is_not_submitted
           (page_short_segment (answer sample_body)) (initial ∅)).
  - reflexivity.
  - reflexivity.
Defined.

(** C2 as stated fails: with the product left empty and a valid segment, the
    form is submitted; the request goes out and no warning is shown. *)
Lemma empty_product_is_submitted :
  let env := page_without_product (answer sample_body) in
  let w' := exec (ModernAnalysisSystem.startAnalysis env) (initial ∅) in
  field_value env "produto" = Some [] /\
  In ("produto", []) (form_entries env) /\
  requests (browser w') =
    [{| method := "POST"; url := "/api/analyze";
        body := FormJson (form_entries env) |}] /\
  map type (this_notifications (this w')) = [success].
Proof. repeat split. right. left. reflexivity. Qed.

(** The free function [startAnalysis] checks that both inputs are filled,
    without a minimum length, and reports a blank one as an error. *)
Example startAnalysis_function_blank_product :
  let w' := exec (startAnalysis (page_without_product (answer sample_body)))
                 (initial ∅) in
  requests (browser w') = [] /\
  map type (toasts (browser w')) = [error].
Proof. split; reflexivity. Qed.

Example startAnalysis_function_short_segment :
  let w' := exec (startAnalysis (page_short_segment (answer sample_body)))
                 (initial ∅) in
  requests (browser w') =
    [{| method := "POST"; url := "/api/analyze";
        body := AnalysisJson (of_ascii "ab") (of_ascii "ab") |}] /\
  map type (toasts (browser w')) = [info; success].
Proof. split; reflexivity. Qed.

(** ** Progress polling (C1, C3, C4) *)

(** [loadSavedSessions] always returns normally, sends its one request, and
    leaves the polling state, the notifications and the storage alone. *)
Lemma loadSavedSessions_frame (env : Env) (w : World) :
  exists w',
    ModernAnalysisSystem.loadSavedSessions env w = (Normal tt, w') /\
    requests (browser w') = requests (browser w) ++ [sessions_request] /\
    localStorage (browser w') = localStorage (browser w) /\
    intervals (browser w') = intervals (browser w) /\
    this_progressInterval (this w') = this_progressInterval (this w) /\
    this_notifications (this w') = this_notifications (this w) /\
    this_currentSessionId (this w') = this_currentSessionId (this w).
Proof.
  unfold ModernAnalysisSystem.loadSavedSessions, sessions_request. js_run.
  destruct (server env _) as [r | msg]; js_run.
  - destruct (ok r); js_run.
    + destruct (payload r) as [b | e]; js_run.
      * destruct (b_success b); js_run.
        -- destruct (b_sessions b); js_run; js_view;
             (eexists; split; [reflexivity | repeat split]).
        -- js_view. eexists; split; [reflexivity | repeat split].
      * js_view. eexists; split; [reflexivity | repeat split].
    + js_view. eexists; split; [reflexivity | repeat split].
  - js_view. eexists; split; [reflexivity | repeat split].
Qed.

Lemma filter_out_timer (id : positive) (l : list (positive * Poller)) :
  ~ In id (map fst (List.filter (fun t => negb (Pos.eqb (fst t) id)) l)).
Proof.
  intros H. apply in_map_iff in H as (t & <- & Ht).
  apply filter_In in Ht as [_ Ht]. now rewrite Pos.eqb_refl in Ht.
Qed.

(** C3, as the code has it ([ModernAnalysisSystem]'s poll): on a reply with
    a truthy [success] and a truthy [completed], the tick clears the timer
    that [this.progressInterval] holds, removes [currentSessionId] from
    [localStorage], shows one success notification and fetches the session
    list once. *)
Theorem completed_poll_ends_monitoring
    (env : Env) (w : World) (r : Response) (data : Body) :
  server env (requests (browser w) ++ [progress_request w]) = Answer r ->
  payload r = Json data ->
  b_success data = true ->
  b_completed data = true ->
  let w' := exec (ModernAnalysisSystem.progressTick env) w in
  this_progressInterval (this w') = None /\
  (forall id, this_progressInterval (this w) = Some id -> ~ In id (active_timers w')) /\
  localStorage (browser w') = delete "currentSessionId" (localStorage (browser w)) /\
  this_notifications (this w') =
    this_notifications (this w)
      ++ [{| message := "Análise concluída com sucesso!"; type := success;
             duration := 5000 |}] /\
  requests (browser w') =
    requests (browser w) ++ [progress_request w; sessions_request].
Proof.
  intros Hreply Hpayload Hsuccess Hcompleted w'. subst w'.
  unfold progress_request in Hreply.
  unfold ModernAnalysisSystem.progressTick, ModernAnalysisSystem.stopProgressMonitoring.
  js_run. rewrite Hreply, Hpayload, Hsuccess. js_view. rewrite Hcompleted.
  js_run.
  destruct (this_progressInterval (this w)) as [id |] eqn:Hhandle;
    js_run; repeat js_view;
    match goal with
    | |- context [ModernAnalysisSystem.loadSavedSessions ?e ?W] =>
        destruct (loadSavedSessions_frame e W)
          as (w2 & -> & Hreq & Hstore & Htimers & Hh & Hnote & _)
    end;
    cbn [fst snd this browser requests localStorage intervals
         this_progressInterval this_notifications] in *;
    rewrite ?Hhandle in Hh;
    unfold active_timers; rewrite Hreq, Hstore, Htimers, Hh, Hnote, <- app_assoc;
    (split; [reflexivity |]);
    (split; [| split; [reflexivity | split; reflexivity]]).
  - intros id' [= <-]. apply filter_out_timer.
  - intros id' [=].
Qed.

Lemma completed_poll_ends_monitoring_witness :
  let w' := exec (ModernAnalysisSystem.progressTick (page (answer completed_body)))
                 polling in
  this_progressInterval (this w') = None /\
  (forall id,
      this_progressInterval (this polling) = Some id -> ~ In id (active_timers w')) /\
  localStorage (browser w') =
    delete "currentSessionId" (localStorage (browser polling)) /\
  this_notifications (this w') =
    this_notifications (this polling)
      ++ [{| message := "Análise concluída com sucesso!"; type := success;
             duration := 5000 |}] /\
  requests (browser w') =
    requests (browser polling) ++ [progress_request polling; sessions_request].
Proof.
  apply (completed_poll_ends_monitoring
           (page (answer completed_body)) polling
           (ok_response completed_body) completed_body);
    reflexivity.
Defined.

(** C3 as stated fails on the free function [startProgressMonitoring]: on a
    completed reply its tick clears the timer and shows a success
    notification, but the stored [currentSessionId] stays and the session
    list is not fetched. *)
Lemma function_poll_completion_skips_refresh :
  let w' := exec (handle (page (answer completed_body)) (tick 1)) function_polling in
  intervals (browser function_polling) = [(1%positive, FunctionPoll "abc123")] /\
  intervals (browser w') = [] /\
  map type (toasts (browser w')) = [info; success; success] /\
  localStorage (browser w') !! "currentSessionId" = Some "abc123" /\
  requests (browser w') =
    requests (browser function_polling)
      ++ [{| method := "GET"; url := "/api/progress/abc123"; body := NoBody |}] /\
  ~ In sessions_request (requests (browser w')).
Proof.
  cbv zeta. repeat split.
  intros [H | [H | []]]; discriminate H.
Qed.








(** The same tick of the method's timer: logged, and the timer stays. *)
Example method_poll_survives_transport_failure :
  let w' := exec (handle (page (NetworkError "Failed to fetch")) (tick 1)) polling in
  intervals (browser w') = [(1%positive, MethodPoll)] /\
  this_notifications (this w') = this_notifications (this polling) /\
  console (browser w') = ["Erro no monitoramento: Failed to fetch"].
Proof. cbv zeta. repeat split. Qed.

(** [startProgressMonitoring] adds its timer to the active ones and cancels
    none. *)
Lemma startProgressMonitoring_cancels_nothing (w : World) :
  truthy (this_currentSessionId (this w)) = true ->
  let w' := exec ModernAnalysisSystem.startProgressMonitoring w in
  intervals (browser w') = intervals (browser w) ++ [(next_timer (browser w), MethodPoll)] /\
  this_progressInterval (this w') = Some (next_timer (browser w)).
Proof.
  intros Hsid. unfold ModernAnalysisSystem.startProgressMonitoring. js_run.
  rewrite Hsid. js_run. split; reflexivity.
Qed.

(** C1 fails on the code: an analysis is started, then a saved session is
    continued while the first poll is still active. The second call of
    [startProgressMonitoring] overwrites the handle without clearing the
    first timer, and two polling timers are active. *)
Theorem second_poll_keeps_first_timer :
  let env := page (answer sample_body) in
  let w1 := exec (handle env submit_analysisForm) (initial ∅) in
  let w2 := exec (handle env (click_continue "xyz")) w1 in
  reachable ∅ w2 /\
  method_pollers w1 = [1%positive] /\
  method_pollers w2 = [1%positive; 2%positive] /\
  this_progressInterval (this w2) = Some 2%positive.
Proof.
  cbv zeta. split; [| repeat split].
  apply reachable_step, reachable_step, reachable_initial.
Qed.

(** The first timer is then out of reach: when the analysis completes, the
    tick stops the timer of the handle, and the other keeps polling with no
    handle left to clear it; each of its ticks announces the completion
    again. *)
Example leaked_timer_outlives_completion :
  let env := page (answer sample_body) in
  let done := page (answer completed_body) in
  let w2 := exec (handle env (click_continue "xyz"))
                 (exec (handle env submit_analysisForm) (initial ∅)) in
  let w3 := exec (handle done (tick 2)) w2 in
  let w4 := exec ModernAnalysisSystem.stopProgressMonitoring w3 in
  let w5 := exec (handle done (tick 1)) w4 in
  this_progressInterval (this w3) = None /\
  method_pollers w3 = [1%positive] /\
  method_pollers w4 = [1%positive] /\
  method_pollers w5 = [1%positive] /\
  map message (this_notifications (this w5)) =
    ["Análise iniciada! Sessão: abc123";
     "Sessão continuada com sucesso";
     "Análise concluída com sucesso!";
     "Análise concluída com sucesso!"].
Proof. cbv zeta. repeat split. Qed.

(** ** The scenarios of the specification *)

(** Submitting segment and product, answered with the session "abc123":
    the identifier is persisted and one poll is started against it. *)
Example scenario_submit :
  this_currentSessionId (this polling) = str "abc123" /\
  localStorage (browser polling) !! "currentSessionId" = Some "abc123" /\
  intervals (browser polling) = [(1%positive, MethodPoll)] /\
  progress_request polling =
    {| method := "GET"; url := "/api/progress/abc123"; body := NoBody |}.
Proof. repeat split. Qed.

(** A poll answered with 45 percent, not completed: the bar is at 45, the
    poll goes on and the session list is not fetched. *)
Example scenario_progress :
  let w' := exec (handle (page (answer sample_body)) (tick 1)) polling in
  In (StyleWidthPct ".progress-fill" (Num 45)) (dom (browser w')) /\
  intervals (browser w') = [(1%positive, MethodPoll)] /\
  requests (browser w') = requests (browser polling) ++ [progress_request polling].
Proof.
  cbv zeta. split; [| split; reflexivity].
  vm_compute. repeat first [left; reflexivity | right].
Qed.

(** A poll answered as completed: the timer is stopped, the success
    notification shown, the persisted identifier cleared. *)
Example scenario_completed :
  let w' := exec (handle (page (answer completed_body)) (tick 1)) polling in
  intervals (browser w') = [] /\
  map type (this_notifications (this w')) = [success; success] /\
  localStorage (browser w') !! "currentSessionId" = None.
Proof. cbv zeta. repeat split. Qed.

(** A delete that the user declines: no request, the map as it was. *)
Example scenario_delete_declined :
  let w' := exec (handle (page_declining (answer sample_body)) (click_delete "s1"))
                 two_sessions in
  requests (browser w') = [] /\
  this_sessions (this w') = this_sessions (this two_sessions).
Proof. cbv zeta. split; reflexivity. Qed.

(** ** Running a method on a named outcome *)

(** [js_run] and [js_view] on the equation of a run. *)
Ltac js_run_in H :=
  cbv [exec bind ret gets modify throw try_catch fetch json getElement
       setInterval clearInterval getItem setItem removeItem
       set_this_currentSessionId set_this_progressInterval set_this_sessions
       set_this_isPaused push_this_notifications set_currentSessionId
       set_progressInterval set_localStorage set_intervals push_request
       push_toast write_dom console_log with_this with_globals with_browser
       ModernAnalysisSystem.showNotification showNotification] in H;
  cbn [fst snd this globals browser
       this_currentSessionId this_progressInterval this_sessions this_isPaused
       this_notifications currentSessionId progressInterval
       localStorage intervals next_timer requests toasts dom console] in H.

Ltac js_view_in H :=
  match type of H with
  | context [ModernAnalysisSystem.showProgress ?e ?s ?w] =>
      let Hv := fresh in
      destruct (showProgress_view e s w) as ([] & ? & Hv); rewrite Hv in H; clear Hv
  | context [ModernAnalysisSystem.updateProgress ?e ?p ?m ?t ?w] =>
      let Hv := fresh in
      destruct (updateProgress_view e p m t w) as ([] & ? & Hv); rewrite Hv in H; clear Hv
  | context [ModernAnalysisSystem.updateSessionControls ?e ?s ?w] =>
      let Hv := fresh in
      destruct (updateSessionControls_view e s w) as ([] & ? & Hv); rewrite Hv in H; clear Hv
  | context [ModernAnalysisSystem.renderEmptySessionsList ?e ?w] =>
      let Hv := fresh in
      destruct (renderEmptySessionsList_view e w) as ([] & ? & Hv); rewrite Hv in H; clear Hv
  | context [ModernAnalysisSystem.renderSessionsList ?e ?w] =>
      let Hv := fresh in
      destruct (renderSessionsList_view e w) as ([] & ? & Hv); rewrite Hv in H; clear Hv
  end; cbv [add_dom] in H; js_run_in H.

(** Names the outcome of the run the goal is about. *)
Ltac js_outcome E :=
  unfold exec;
  match goal with
  | |- context [snd (?m ?w)] =>
      let c := fresh "c" in let w1 := fresh "w1" in
      destruct (m w) as [c w1] eqn:E; cbn [snd]
  end.

Ltac js_done E :=
  injection E as _ <-;
  cbn [this globals browser
       this_currentSessionId this_progressInterval this_sessions this_isPaused
       this_notifications currentSessionId progressInterval
       localStorage intervals next_timer requests toasts dom console].

(** ** More on the file upload *)

(** An accepted upload still ends in an error: after the success
    notification the method calls [this.addFileToList], which the class
    does not define, and the catch block reports the TypeError. *)
Theorem accepted_upload_reports_an_error (env : Env) (f : File) (w : World) (b : Body) :
  accepted (server env (requests (browser w) ++ [upload_request f])) = Some b ->
  this_notifications (this (exec (ModernAnalysisSystem.uploadFile env f) w)) =
    this_notifications (this w)
      ++ [{| message := "Arquivo " +:+ file_name f +:+ " enviado com sucesso!";
             type := success; duration := 5000 |};
          {| message := "Erro no upload: this.addFileToList is not a function";
             type := error; duration := 5000 |}].
Proof.
  unfold accepted, upload_request, ModernAnalysisSystem.uploadFile,
    ModernAnalysisSystem.addFileToList.
  js_run. destruct (server env _) as [r | msg]; [| discriminate].
  destruct (payload r) as [b' | e]; [| discriminate].
  destruct (b_success b'); [| discriminate].
  intros _. js_run. now rewrite <- app_assoc.
Qed.

Lemma accepted_upload_reports_an_error_witness :
  this_notifications
    (this (exec (ModernAnalysisSystem.uploadFile (page (answer sample_body)) small_txt)
                (initial ∅))) =
    this_notifications (this (initial ∅))
      ++ [{| message := "Arquivo " +:+ file_name small_txt +:+ " enviado com sucesso!";
             type := success; duration := 5000 |};
          {| message := "Erro no upload: this.addFileToList is not a function";
             type := error; duration := 5000 |}].
Proof.
  apply (accepted_upload_reports_an_error
           (page (answer sample_body)) small_txt (initial ∅) sample_body).
  reflexivity.
Defined.

(** [handleFiles] sends one upload request for each accepted file, in the
    order of the files, and no other request, whatever the service replies
    to each. *)
Theorem handleFiles_uploads_accepted_in_order
    (env : Env) (files : list File) (w : World) :
  requests (browser (exec (ModernAnalysisSystem.handleFiles env files) w)) =
    requests (browser w) ++ map upload_request (List.filter acceptable files).
Proof.
  destruct (Upload.handleFiles_requests env files w) as (w' & Hrun & Hreq).
  unfold exec. now rewrite Hrun.
Qed.

Lemma uploadFile_notifies (env : Env) (f : File) (w : World) :
  exists w' ns,
    ModernAnalysisSystem.uploadFile env f w = (Normal tt, w') /\
    this_notifications (this w') = this_notifications (this w) ++ ns /\
    1 <= length ns <= 2.
Proof.
  unfold ModernAnalysisSystem.uploadFile, ModernAnalysisSystem.addFileToList.
  js_run. destruct (server env _) as [r | msg].
  - destruct (payload r) as [b | e].
    + destruct (b_success b); js_run.
      * eexists _, [_; _]. rewrite <- app_assoc. repeat split; cbn; lia.
      * eexists _, [_]. repeat split; cbn; lia.
    + js_run. eexists _, [_]. repeat split; cbn; lia.
  - js_run. eexists _, [_]. repeat split; cbn; lia.
Qed.

Lemma handleFiles_notifies (env : Env) (files : list File) :
  forall w, exists w' ns,
    ModernAnalysisSystem.handleFiles env files w = (Normal tt, w') /\
    this_notifications (this w') = this_notifications (this w) ++ ns /\
    length files <= length ns <= 2 * length files.
Proof.
  induction files as [| f rest IH]; intros w.
  - exists w, []. rewrite app_nil_r. repeat split; cbn; lia.
  - cbn [ModernAnalysisSystem.handleFiles]. unfold bind at 1.
    destruct (acceptable f) eqn:Hf.
    + rewrite (Upload.validateFile_accepts f w Hf). unfold bind at 1.
      destruct (uploadFile_notifies env f w) as (w1 & ns1 & -> & Hn1 & Hlen1).
      destruct (IH w1) as (w2 & ns2 & -> & Hn2 & Hlen2).
      exists w2, (ns1 ++ ns2). rewrite Hn2, Hn1, <- app_assoc.
      rewrite length_app. cbn [length]. repeat split; lia.
    + destruct (Upload.validateFile_rejects f w Hf) as (msg & ->).
      unfold bind at 1. unfold ret at 1.
      destruct (IH (exec (ModernAnalysisSystem.showNotification msg warning 5000) w))
        as (w2 & ns2 & -> & Hn2 & Hlen2).
      exists w2, ({| message := msg; type := warning; duration := 5000 |} :: ns2).
      rewrite Hn2. cbn [length]. split; [reflexivity |]. split.
      * js_run. now rewrite <- app_assoc.
      * lia.
Qed.

(** No file is passed over in silence: [handleFiles] returns normally and
    leaves at least one notification and at most two for each file. *)
Theorem handleFiles_notifies_every_file (env : Env) (files : list File) (w : World) :
  exists w' ns,
    ModernAnalysisSystem.handleFiles env files w = (Normal tt, w') /\
    this_notifications (this w') = this_notifications (this w) ++ ns /\
    length files <= length ns <= 2 * length files.
Proof. apply handleFiles_notifies. Qed.

(** The free function [handleFiles] only notifies: one warning when there is
    no file, one information notice otherwise; it sends no request and does
    not touch the instance. *)
Theorem handleFiles_function_only_notifies (files : option (list File)) (w : World) :
  let w' := exec (handleFiles files) w in
  requests (browser w') = requests (browser w) /\
  this w' = this w /\
  exists n,
    toasts (browser w') = toasts (browser w) ++ [n] /\
    type n = match files with
             | None | Some [] => warning
             | Some _ => info
             end.
Proof.
  unfold handleFiles. destruct files as [[| f l] |]; js_run;
    (split; [reflexivity |]); (split; [reflexivity |]); eexists; split; reflexivity.
Qed.

(** ** Starting an analysis: the two outcomes *)

Lemma validateForm_accepts (env : Env) (w : World) :
  segment_invalid env = false ->
  ModernAnalysisSystem.validateForm env w = (Normal true, w).
Proof.
  unfold segment_invalid, ModernAnalysisSystem.validateForm.
  destruct (field_value env "[name=segmento]") as [v |]; [| discriminate].
  destruct (trim v) as [| c t]; [discriminate |]. now intros ->.
Qed.

(** When the request of the method [startAnalysis] fails in any way (the
    transport, an HTTP status that is not ok, a body that does not parse, a
    [success] that is not truthy), the one request has been sent, one error
    notification is shown, and the current session, the poll and the
    storage are those of before: a session that was active stays active. *)
Theorem failed_startAnalysis_keeps_session (env : Env) (w : World) :
  has_element env "analysisForm" = true ->
  segment_invalid env = false ->
  unsuccessful (server env (requests (browser w) ++ [analysis_request env])) = true ->
  let w' := exec (ModernAnalysisSystem.startAnalysis env) w in
  requests (browser w') = requests (browser w) ++ [analysis_request env] /\
  (exists msg,
      this_notifications (this w') =
        this_notifications (this w)
          ++ [{| message := "Erro na análise: " +:+ msg; type := error;
                 duration := 5000 |}]) /\
  this_currentSessionId (this w') = this_currentSessionId (this w) /\
  this_progressInterval (this w') = this_progressInterval (this w) /\
  intervals (browser w') = intervals (browser w) /\
  localStorage (browser w') = localStorage (browser w).
Proof.
  intros Hform Hseg Hfail w'. subst w'. js_outcome E.
  unfold ModernAnalysisSystem.startAnalysis in E.
  unfold analysis_request, unsuccessful in *.
  js_run_in E. rewrite Hform in E. cbn [negb] in E.
  rewrite (validateForm_accepts env w Hseg) in E.
  js_run_in E. js_view_in E. js_view_in E.
  destruct (server env _) as [r | msg]; js_run_in E.
  - destruct (ok r); cbn [negb orb] in Hfail; js_run_in E.
    + destruct (payload r) as [b | e]; js_run_in E.
      * apply negb_true_iff in Hfail. rewrite Hfail in E. js_run_in E. js_view_in E.
        js_done E. repeat split; eauto.
      * js_view_in E. js_done E. repeat split; eauto.
    + js_view_in E. js_done E. repeat split; eauto.
  - js_view_in E. js_done E. repeat split; eauto.
Qed.

Lemma failed_startAnalysis_keeps_session_witness :
  let env := page (answer refusal) in
  let w' := exec (ModernAnalysisSystem.startAnalysis env) polling in
  requests (browser w') = requests (browser polling) ++ [analysis_request env] /\
  (exists msg,
      this_notifications (this w') =
        this_notifications (this polling)
          ++ [{| message := "Erro na análise: " +:+ msg; type := error;
                 duration := 5000 |}]) /\
  this_currentSessionId (this w') = this_currentSessionId (this polling) /\
  this_progressInterval (this w') = this_progressInterval (this polling) /\
  intervals (browser w') = intervals (browser polling) /\
  localStorage (browser w') = localStorage (browser polling).
Proof.
  apply (failed_startAnalysis_keeps_session (page (answer refusal)) polling);
    reflexivity.
Defined.

(** When the request of the method [startAnalysis] goes through, the
    identifier of the reply becomes the current session and is persisted as
    the text a template would print, and a poll is started exactly when the
    identifier is truthy: a reply without [session_id] persists the text
    "undefined" and starts no poll. *)
Theorem successful_startAnalysis_persists_session (env : Env) (w : World) (b : Body) :
  has_element env "analysisForm" = true ->
  segment_invalid env = false ->
  successful (server env (requests (browser w) ++ [analysis_request env])) = Some b ->
  let w' := exec (ModernAnalysisSystem.startAnalysis env) w in
  this_currentSessionId (this w') = b_session_id b /\
  localStorage (browser w') =
    <["currentSessionId" := to_string (b_session_id b)]> (localStorage (browser w)) /\
  intervals (browser w') =
    intervals (browser w)
      ++ (if truthy (b_session_id b) then [(next_timer (browser w), MethodPoll)]
          else []) /\
  this_progressInterval (this w') =
    (if truthy (b_session_id b) then Some (next_timer (browser w))
     else this_progressInterval (this w)) /\
  requests (browser w') = requests (browser w) ++ [analysis_request env].
Proof.
  intros Hform Hseg Hok w'. subst w'. js_outcome E.
  unfold ModernAnalysisSystem.startAnalysis,
    ModernAnalysisSystem.startProgressMonitoring in E.
  unfold analysis_request, successful in *.
  js_run_in E. rewrite Hform in E. cbn [negb] in E.
  rewrite (validateForm_accepts env w Hseg) in E.
  js_run_in E. js_view_in E. js_view_in E.
  destruct (server env _) as [r | msg]; [| discriminate].
  destruct (ok r); [| discriminate].
  destruct (payload r) as [b' | e]; [| discriminate].
  destruct (b_success b'); [| discriminate].
  injection Hok as ->. js_run_in E.
  destruct (truthy (b_session_id b)); js_run_in E; js_done E;
    rewrite ?app_nil_r; repeat split.
Qed.

Lemma successful_startAnalysis_persists_session_witness :
  let env := page (answer no_session_id) in
  let w' := exec (ModernAnalysisSystem.startAnalysis env) (initial ∅) in
  this_currentSessionId (this w') = b_session_id no_session_id /\
  localStorage (browser w') =
    <["currentSessionId" := to_string (b_session_id no_session_id)]>
      (localStorage (browser (initial ∅))) /\
  intervals (browser w') =
    intervals (browser (initial ∅))
      ++ (if truthy (b_session_id no_session_id)
          then [(next_timer (browser (initial ∅)), MethodPoll)]
          else []) /\
  this_progressInterval (this w') =
    (if truthy (b_session_id no_session_id)
     then Some (next_timer (browser (initial ∅)))
     else this_progressInterval (this (initial ∅))) /\
  requests (browser w') = requests (browser (initial ∅)) ++ [analysis_request env].
Proof.
  apply (successful_startAnalysis_persists_session
           (page (answer no_session_id)) (initial ∅) no_session_id);
    reflexivity.
Defined.

(** ** Lifecycle actions: what is not sent, and what success does *)

(** Without a truthy current session, pause, resume and save send nothing:
    one warning notification, and every other part of the state as it
    was. *)
Theorem action_without_session_sends_nothing (env : Env) (a : Action) (w : World) :
  In a [act_pause; act_resume; act_save] ->
  truthy (this_currentSessionId (this w)) = false ->
  let w' := exec (perform env a) w in
  requests (browser w') = requests (browser w) /\
  (exists msg,
      this_notifications (this w') =
        this_notifications (this w)
          ++ [{| message := msg; type := warning; duration := 5000 |}]) /\
  this_isPaused (this w') = this_isPaused (this w) /\
  this_progressInterval (this w') = this_progressInterval (this w) /\
  intervals (browser w') = intervals (browser w) /\
  localStorage (browser w') = localStorage (browser w) /\
  dom (browser w') = dom (browser w).
Proof.
  intros Ha Hsid w'. subst w'.
  destruct Ha as [<- | [<- | [<- | []]]]; cbn [perform];
    unfold ModernAnalysisSystem.pauseSession, ModernAnalysisSystem.resumeSession,
      ModernAnalysisSystem.saveSession;
    js_run; rewrite Hsid; js_run; repeat split; eauto.
Qed.

Lemma action_without_session_sends_nothing_witness :
  let env := page (answer sample_body) in
  let w' := exec (perform env act_pause) (initial ∅) in
  requests (browser w') = requests (browser (initial ∅)) /\
  (exists msg,
      this_notifications (this w') =
        this_notifications (this (initial ∅))
          ++ [{| message := msg; type := warning; duration := 5000 |}]) /\
  this_isPaused (this w') = this_isPaused (this (initial ∅)) /\
  this_progressInterval (this w') = this_progressInterval (this (initial ∅)) /\
  intervals (browser w') = intervals (browser (initial ∅)) /\
  localStorage (browser w') = localStorage (browser (initial ∅)) /\
  dom (browser w') = dom (browser (initial ∅)).
Proof.
  apply (action_without_session_sends_nothing
           (page (answer sample_body)) act_pause (initial ∅)).
  - left. reflexivity.
  - reflexivity.
Defined.

(** A delete or a clear-all that the user declines is no action at all: the
    world is the one of before. *)
Theorem declined_confirmation_changes_nothing (env : Env) (a : Action) (w : World) :
  (exists sessionId, a = act_delete sessionId) \/ a = act_clear_all ->
  issues_request env a w = false ->
  exec (perform env a) w = w.
Proof.
  intros [[sessionId ->] | ->] Hno; cbn [perform issues_request] in *;
    unfold ModernAnalysisSystem.deleteSession, ModernAnalysisSystem.clearAllSessions;
    rewrite Hno; reflexivity.
Qed.

Lemma declined_confirmation_changes_nothing_witness :
  exec (perform (page_declining (answer sample_body)) (act_delete "s1")) two_sessions =
    two_sessions.
Proof.
  apply (declined_confirmation_changes_nothing
           (page_declining (answer sample_body)) (act_delete "s1") two_sessions).
  - left. exists "s1". reflexivity.
  - reflexivity.
Defined.

(** A pause that the service accepts sets the paused flag, clears the timer
    of the handle and the handle itself, and shows one success
    notification; the current session and the storage stay. *)
Theorem accepted_pause_stops_poll (env : Env) (w : World) (b : Body) :
  truthy (this_currentSessionId (this w)) = true ->
  accepted (server env (requests (browser w) ++ [action_request act_pause w])) = Some b ->
  let w' := exec (ModernAnalysisSystem.pauseSession env) w in
  this_isPaused (this w') = true /\
  this_progressInterval (this w') = None /\
  intervals (browser w') =
    match this_progressInterval (this w) with
    | Some id => List.filter (fun t => negb (Pos.eqb (fst t) id)) (intervals (browser w))
    | None => intervals (browser w)
    end /\
  next_timer (browser w') = next_timer (browser w) /\
  this_notifications (this w') =
    this_notifications (this w)
      ++ [{| message := "Sessão pausada com sucesso"; type := success;
             duration := 5000 |}] /\
  this_currentSessionId (this w') = this_currentSessionId (this w) /\
  localStorage (browser w') = localStorage (browser w) /\
  requests (browser w') = requests (browser w) ++ [action_request act_pause w].
Proof.
  intros Hsid Hok w'. subst w'. js_outcome E.
  unfold ModernAnalysisSystem.pauseSession, ModernAnalysisSystem.stopProgressMonitoring in E.
  unfold accepted, action_request in *.
  js_run_in E. rewrite Hsid in E. cbn [negb] in E. js_run_in E.
  destruct (server env _) as [r | msg]; [| discriminate].
  destruct (payload r) as [b' | e]; [| discriminate].
  destruct (b_success b'); [| discriminate]. js_run_in E.
  destruct (this_progressInterval (this w)) as [id |];
    js_run_in E; js_view_in E; js_done E; repeat split.
Qed.

Lemma accepted_pause_stops_poll_witness :
  let env := page (answer sample_body) in
  let w' := exec (ModernAnalysisSystem.pauseSession env) polling in
  this_isPaused (this w') = true /\
  this_progressInterval (this w') = None /\
  intervals (browser w') =
    match this_progressInterval (this polling) with
    | Some id =>
        List.filter (fun t => negb (Pos.eqb (fst t) id)) (intervals (browser polling))
    | None => intervals (browser polling)
    end /\
  next_timer (browser w') = next_timer (browser polling) /\
  this_notifications (this w') =
    this_notifications (this polling)
      ++ [{| message := "Sessão pausada com sucesso"; type := success;
             duration := 5000 |}] /\
  this_currentSessionId (this w') = this_currentSessionId (this polling) /\
  localStorage (browser w') = localStorage (browser polling) /\
  requests (browser w') = requests (browser polling) ++ [action_request act_pause polling].
Proof.
  apply (accepted_pause_stops_poll (page (answer sample_body)) polling sample_body);
    reflexivity.
Defined.

(** A resume that the service accepts clears the paused flag and starts a
    poll on a fresh timer, whose handle it keeps. *)
Lemma accepted_resume_starts_poll (env : Env) (w : World) (b : Body) :
  truthy (this_currentSessionId (this w)) = true ->
  accepted (server env (requests (browser w) ++ [action_request act_resume w])) = Some b ->
  let w' := exec (ModernAnalysisSystem.resumeSession env) w in
  this_isPaused (this w') = false /\
  this_progressInterval (this w') = Some (next_timer (browser w)) /\
  intervals (browser w') = intervals (browser w) ++ [(next_timer (browser w), MethodPoll)] /\
  this_currentSessionId (this w') = this_currentSessionId (this w) /\
  localStorage (browser w') = localStorage (browser w).
Proof.
  intros Hsid Hok w'. subst w'. js_outcome E.
  unfold ModernAnalysisSystem.resumeSession,
    ModernAnalysisSystem.startProgressMonitoring in E.
  unfold accepted, action_request in *.
  js_run_in E. rewrite Hsid in E. cbn [negb] in E. js_run_in E.
  destruct (server env _) as [r | msg]; [| discriminate].
  destruct (payload r) as [b' | e]; [| discriminate].
  destruct (b_success b'); [| discriminate]. js_run_in E.
  rewrite Hsid in E. js_run_in E. js_view_in E. js_done E. repeat split.
Qed.

(** Pause then resume, both accepted: the poll that was running is replaced
    by one poll on a fresh timer, the other timers are untouched, and the
    session, the storage and the paused flag are back where they were for a
    running session. *)
Theorem pause_then_resume_restarts_poll
    (env1 env2 : Env) (w : World) (id : positive) (b1 b2 : Body) :
  truthy (this_currentSessionId (this w)) = true ->
  this_progressInterval (this w) = Some id ->
  accepted (server env1 (requests (browser w) ++ [action_request act_pause w])) = Some b1 ->
  let w1 := exec (ModernAnalysisSystem.pauseSession env1) w in
  accepted (server env2 (requests (browser w1) ++ [action_request act_resume w1])) = Some b2 ->
  let w2 := exec (ModernAnalysisSystem.resumeSession env2) w1 in
  this_isPaused (this w2) = false /\
  this_progressInterval (this w2) = Some (next_timer (browser w)) /\
  intervals (browser w2) =
    List.filter (fun t => negb (Pos.eqb (fst t) id)) (intervals (browser w))
      ++ [(next_timer (browser w), MethodPoll)] /\
  this_currentSessionId (this w2) = this_currentSessionId (this w) /\
  localStorage (browser w2) = localStorage (browser w).
Proof.
  intros Hsid Hhandle Hpause w1 Hresume w2.
  destruct (accepted_pause_stops_poll env1 w b1 Hsid Hpause)
    as (_ & _ & Htimers & Hnext & _ & Hcur & Hstore & _).
  fold w1 in Htimers, Hnext, Hcur, Hstore. rewrite Hhandle in Htimers.
  assert (Hsid1 : truthy (this_currentSessionId (this w1)) = true) by now rewrite Hcur.
  destruct (accepted_resume_starts_poll env2 w1 b2 Hsid1 Hresume)
    as (Hp & Hh & Ht & Hc & Hs).
  fold w2 in Hp, Hh, Ht, Hc, Hs.
  rewrite Hp, Hh, Ht, Hc, Hs, Htimers, Hnext, Hcur, Hstore. repeat split.
Qed.

Lemma pause_then_resume_restarts_poll_witness :
  let env := page (answer sample_body) in
  let w1 := exec (ModernAnalysisSystem.pauseSession env) polling in
  let w2 := exec (ModernAnalysisSystem.resumeSession env) w1 in
  this_isPaused (this w2) = false /\
  this_progressInterval (this w2) = Some (next_timer (browser polling)) /\
  intervals (browser w2) =
    List.filter (fun t => negb (Pos.eqb (fst t) 1%positive)) (intervals (browser polling))
      ++ [(next_timer (browser polling), MethodPoll)] /\
  this_currentSessionId (this w2) = this_currentSessionId (this polling) /\
  localStorage (browser w2) = localStorage (browser polling).
Proof.
  apply (pause_then_resume_restarts_poll
           (page (answer sample_body)) (page (answer sample_body)) polling 1%positive
           sample_body sample_body);
    reflexivity.
Defined.

(** ** The session map *)

Lemma Map_get_delete (k k' : string) (m : list (string * Session)) :
  Map_get k' (Map_delete k m) = if String.eqb k' k then None else Map_get k' m.
Proof.
  unfold Map_get, Map_delete. induction m as [| [j s] m IH]; cbn [List.filter List.find fst].
  - now destruct (String.eqb k' k).
  - destruct (String.eqb j k) eqn:Hjk; cbn [negb List.find fst].
    + rewrite IH. destruct (String.eqb k' k) eqn:Hk'; [reflexivity |].
      apply String.eqb_eq in Hjk. subst j.
      rewrite String.eqb_sym, Hk'. reflexivity.
    + destruct (String.eqb j k') eqn:Hjk'.
      * apply String.eqb_eq in Hjk'. subst j. now rewrite Hjk.
      * exact IH.
Qed.

(** A delete that the service accepts removes that session from the map and
    no other, shows one success notification and writes the list again; it
    stops no poll and forgets no session, even when the session deleted is
    the current one. *)
Theorem accepted_delete_removes_one_session
    (env : Env) (sessionId : string) (w : World) (b : Body) :
  confirm env "Tem certeza que deseja excluir esta sessão?" = true ->
  accepted (server env (requests (browser w) ++ [action_request (act_delete sessionId) w]))
    = Some b ->
  let w' := exec (ModernAnalysisSystem.deleteSession env sessionId) w in
  Map_get sessionId (this_sessions (this w')) = None /\
  (forall k, k <> sessionId ->
             Map_get k (this_sessions (this w')) = Map_get k (this_sessions (this w))) /\
  dom (browser w') = dom (browser w) ++ sessions_view env (this_sessions (this w')) /\
  this_notifications (this w') =
    this_notifications (this w)
      ++ [{| message := "Sessão excluída com sucesso"; type := success;
             duration := 5000 |}] /\
  this_currentSessionId (this w') = this_currentSessionId (this w) /\
  this_progressInterval (this w') = this_progressInterval (this w) /\
  intervals (browser w') = intervals (browser w) /\
  localStorage (browser w') = localStorage (browser w).
Proof.
  intros Hyes Hok w'. subst w'. js_outcome E.
  unfold ModernAnalysisSystem.deleteSession in E.
  unfold accepted, action_request in *.
  rewrite Hyes in E. js_run_in E.
  destruct (server env _) as [r | msg]; [| discriminate].
  destruct (payload r) as [b' | e]; [| discriminate].
  destruct (b_success b'); [| discriminate]. js_run_in E.
  rewrite renderSessionsList_writes in E. cbv [add_dom] in E. js_run_in E.
  js_done E. split; [| split]; [| | repeat split].
  - rewrite Map_get_delete. now rewrite String.eqb_refl.
  - intros k Hk. rewrite Map_get_delete.
    apply String.eqb_neq in Hk. now rewrite Hk.
Qed.

Lemma accepted_delete_removes_one_session_witness :
  let env := page (answer sample_body) in
  let w' := exec (ModernAnalysisSystem.deleteSession env "s1") two_sessions in
  Map_get "s1" (this_sessions (this w')) = None /\
  (forall k, k <> "s1" ->
             Map_get k (this_sessions (this w')) =
               Map_get k (this_sessions (this two_sessions))) /\
  dom (browser w') = dom (browser two_sessions) ++ sessions_view env (this_sessions (this w')) /\
  this_notifications (this w') =
    this_notifications (this two_sessions)
      ++ [{| message := "Sessão excluída com sucesso"; type := success;
             duration := 5000 |}] /\
  this_currentSessionId (this w') = this_currentSessionId (this two_sessions) /\
  this_progressInterval (this w') = this_progressInterval (this two_sessions) /\
  intervals (browser w') = intervals (browser two_sessions) /\
  localStorage (browser w') = localStorage (browser two_sessions).
Proof.
  apply (accepted_delete_removes_one_session
           (page (answer sample_body)) "s1" two_sessions sample_body);
    reflexivity.
Defined.

(** A clear-all that the service accepts empties the map and writes the
    empty list; like delete, it leaves the current session, its poll and the
    persisted identifier in place. *)
Theorem accepted_clear_empties_map (env : Env) (w : World) (b : Body) :
  confirm env "Tem certeza que deseja excluir TODAS as sessões?" = true ->
  accepted (server env (requests (browser w) ++ [action_request act_clear_all w]))
    = Some b ->
  let w' := exec (ModernAnalysisSystem.clearAllSessions env) w in
  this_sessions (this w') = [] /\
  dom (browser w') =
    dom (browser w) ++ (if has_element env "sessionsList" then [SessionsEmpty] else []) /\
  this_currentSessionId (this w') = this_currentSessionId (this w) /\
  this_progressInterval (this w') = this_progressInterval (this w) /\
  intervals (browser w') = intervals (browser w) /\
  localStorage (browser w') = localStorage (browser w).
Proof.
  intros Hyes Hok w'. subst w'. js_outcome E.
  unfold ModernAnalysisSystem.clearAllSessions,
    ModernAnalysisSystem.renderEmptySessionsList in E.
  unfold accepted, action_request in *.
  rewrite Hyes in E. js_run_in E.
  destruct (server env _) as [r | msg]; [| discriminate].
  destruct (payload r) as [b' | e]; [| discriminate].
  destruct (b_success b'); [| discriminate]. js_run_in E.
  destruct (has_element env "sessionsList"); js_run_in E; js_done E;
    rewrite ?app_nil_r; repeat split.
Qed.

Lemma accepted_clear_empties_map_witness :
  let env := page (answer sample_body) in
  let w' := exec (ModernAnalysisSystem.clearAllSessions env) two_sessions in
  this_sessions (this w') = [] /\
  dom (browser w') =
    dom (browser two_sessions)
      ++ (if has_element env "sessionsList" then [SessionsEmpty] else []) /\
  this_currentSessionId (this w') = this_currentSessionId (this two_sessions) /\
  this_progressInterval (this w') = this_progressInterval (this two_sessions) /\
  intervals (browser w') = intervals (browser two_sessions) /\
  localStorage (browser w') = localStorage (browser two_sessions).
Proof.
  apply (accepted_clear_empties_map (page (answer sample_body)) two_sessions sample_body);
    reflexivity.
Defined.

Lemma Map_get_set (k k' : string) (v : Session) (m : list (string * Session)) :
  Map_get k' (Map_set k v m) = if String.eqb k' k then Some v else Map_get k' m.
Proof.
  unfold Map_get. induction m as [| [j s] m IH]; cbn [Map_set List.find fst].
  - destruct (String.eqb_spec k k'), (String.eqb_spec k' k);
      subst; try reflexivity; congruence.
  - destruct (String.eqb_spec j k); cbn [List.find fst].
    + subst j. destruct (String.eqb_spec k k'), (String.eqb_spec k' k);
        subst; try reflexivity; congruence.
    + destruct (String.eqb_spec j k'), (String.eqb_spec k' k);
        subst; try reflexivity; try congruence; exact IH.
Qed.

Lemma find_last {A : Type} (p : A -> bool) (l : list A) (a : A) :
  List.find p (l ++ [a]) =
    match List.find p l with
    | Some x => Some x
    | None => if p a then Some a else None
    end.
Proof.
  induction l as [| x l IH]; cbn [app List.find]; [reflexivity |].
  now destruct (p x).
Qed.

(** Lookup after the [forEach] of [loadSavedSessions]: the last session of
    the reply with that identifier, else what the map held. *)
Lemma Map_get_forEach (k : string) (l : list Session) :
  forall m,
    Map_get k (fold_left (fun m s => Map_set (session_id s) s m) l m) =
      match List.find (fun s => String.eqb (session_id s) k) (rev l) with
      | Some s => Some s
      | None => Map_get k m
      end.
Proof.
  induction l as [| s l IH]; intros m; cbn [fold_left rev]; [reflexivity |].
  rewrite IH, find_last, Map_get_set.
  destruct (List.find _ (rev l)); [reflexivity |].
  rewrite (String.eqb_sym k). now destruct (String.eqb (session_id s) k).
Qed.

Lemma Map_set_keys (k : string) (v : Session) (m : list (string * Session)) :
  map fst (Map_set k v m) =
    if ModernAnalysisSystem.includes (map fst m) k then map fst m else map fst m ++ [k].
Proof.
  unfold ModernAnalysisSystem.includes.
  induction m as [| [j s] m IH]; cbn [Map_set map fst existsb app]; [reflexivity |].
  rewrite (String.eqb_sym k j). destruct (String.eqb j k) eqn:Hjk; cbn [orb map fst].
  - apply String.eqb_eq in Hjk. now subst j.
  - rewrite IH. now destruct (existsb (String.eqb k) (map fst m)).
Qed.

Lemma Map_set_In (k : string) (v : Session) (m : list (string * Session)) (j : string) (s : Session) :
  In (j, s) (Map_set k v m) -> (j, s) = (k, v) \/ In (j, s) m.
Proof.
  induction m as [| [j' s'] m IH]; cbn [Map_set In].
  - intros [H | []]. now left.
  - destruct (String.eqb j' k).
    + cbn [In]. intros [H | H]; auto.
    + cbn [In]. intros [H | H]; auto. destruct (IH H); auto.
Qed.

Lemma map_wf_set (s : Session) (m : list (string * Session)) :
  map_wf m -> map_wf (Map_set (session_id s) s m).
Proof.
  intros [Hnodup Hkeys]. split.
  - rewrite Map_set_keys.
    destruct (ModernAnalysisSystem.includes (map fst m) (session_id s)) eqn:Hin;
      [assumption |].
    apply NoDup_app. split; [assumption |]. split.
    + intros x Hx [<- | []]%list_elem_of_In. apply list_elem_of_In in Hx. apply includes_In in Hx. congruence.
    + constructor; [intros H; inversion H | constructor].
  - intros k s' Hin. apply Map_set_In in Hin as [[= -> ->] | Hin]; auto.
Qed.

Lemma map_wf_forEach (l : list Session) :
  forall m, map_wf m -> map_wf (fold_left (fun m s => Map_set (session_id s) s m) l m).
Proof.
  induction l as [| s l IH]; intros m Hm; cbn [fold_left]; [assumption |].
  apply IH, map_wf_set, Hm.
Qed.

Lemma map_wf_nil : map_wf [].
Proof. split; [constructor | intros k s []]. Qed.


(** A list reply that goes through replaces the map wholesale: each
    identifier maps to the last session of the reply that bears it, nothing
    of the old map is left, the keys are distinct, and the list is written
    from the new map. *)
Theorem loaded_sessions_replace_map (env : Env) (w : World) (b : Body) (l : list Session) :
  successful (server env (requests (browser w) ++ [sessions_request])) = Some b ->
  b_sessions b = Some l ->
  let w' := exec (ModernAnalysisSystem.loadSavedSessions env) w in
  (forall k, Map_get k (this_sessions (this w')) =
             List.find (fun s => String.eqb (session_id s) k) (rev l)) /\
  map_wf (this_sessions (this w')) /\
  dom (browser w') = dom (browser w) ++ sessions_view env (this_sessions (this w')).
Proof.
  intros Hok Hl w'. subst w'.
  unfold ModernAnalysisSystem.loadSavedSessions, successful, sessions_request in *.
  js_run. destruct (server env _) as [r | msg]; [| discriminate].
  destruct (ok r); [| discriminate].
  destruct (payload r) as [b' | e]; [| discriminate].
  destruct (b_success b'); [| discriminate].
  injection Hok as ->. js_run. rewrite Hl. js_run.
  rewrite renderSessionsList_writes. cbv [add_dom]. js_run.
  split; [| split].
  - intros k. rewrite Map_get_forEach. now destruct (List.find _ (rev l)).
  - apply map_wf_forEach, map_wf_nil.
  - reflexivity.
Qed.

Lemma loaded_sessions_replace_map_witness :
  let l := [sample_session "s1" "running"; sample_session "s2" "saved";
            sample_session "s1" "completed"] in
  let env := page (answer (list_body l)) in
  let w' := exec (ModernAnalysisSystem.loadSavedSessions env) two_sessions in
  (forall k, Map_get k (this_sessions (this w')) =
             List.find (fun s => String.eqb (session_id s) k) (rev l)) /\
  map_wf (this_sessions (this w')) /\
  dom (browser w') =
    dom (browser two_sessions) ++ sessions_view env (this_sessions (this w')).
Proof.
  apply (loaded_sessions_replace_map
           (page (answer (list_body
                            [sample_session "s1" "running"; sample_session "s2" "saved";
                             sample_session "s1" "completed"])))
           two_sessions
           (list_body [sample_session "s1" "running"; sample_session "s2" "saved";
                       sample_session "s1" "completed"])
           [sample_session "s1" "running"; sample_session "s2" "saved";
            sample_session "s1" "completed"]);
    reflexivity.
Defined.

(** When the list request fails (transport, HTTP status, unparsable body or
    a [success] that is not truthy) the empty list is written although the
    map keeps the sessions it held: view and map part ways until the next
    load that goes through. *)
Theorem failed_load_keeps_map_shows_empty (env : Env) (w : World) :
  unsuccessful (server env (requests (browser w) ++ [sessions_request])) = true ->
  let w' := exec (ModernAnalysisSystem.loadSavedSessions env) w in
  this_sessions (this w') = this_sessions (this w) /\
  dom (browser w') =
    dom (browser w) ++ (if has_element env "sessionsList" then [SessionsEmpty] else []) /\
  this_notifications (this w') = this_notifications (this w) /\
  requests (browser w') = requests (browser w) ++ [sessions_request].
Proof.
  intros Hfail w'. subst w'.
  unfold ModernAnalysisSystem.loadSavedSessions,
    ModernAnalysisSystem.renderEmptySessionsList, unsuccessful, sessions_request in *.
  js_run. destruct (server env _) as [r | msg]; js_run.
  - destruct (ok r); cbn [negb orb] in Hfail; js_run.
    + destruct (payload r) as [b | e]; js_run.
      * apply negb_true_iff in Hfail. rewrite Hfail. js_run.
        destruct (has_element env "sessionsList"); js_run; rewrite ?app_nil_r;
          repeat split.
      * destruct (has_element env "sessionsList"); js_run; rewrite ?app_nil_r;
          repeat split.
    + destruct (has_element env "sessionsList"); js_run; rewrite ?app_nil_r;
        repeat split.
  - destruct (has_element env "sessionsList"); js_run; rewrite ?app_nil_r;
      repeat split.
Qed.

Lemma failed_load_keeps_map_shows_empty_witness :
  let env := page (NetworkError "Failed to fetch") in
  let w' := exec (ModernAnalysisSystem.loadSavedSessions env) two_sessions in
  this_sessions (this w') = this_sessions (this two_sessions) /\
  dom (browser w') =
    dom (browser two_sessions)
      ++ (if has_element env "sessionsList" then [SessionsEmpty] else []) /\
  this_notifications (this w') = this_notifications (this two_sessions) /\
  requests (browser w') = requests (browser two_sessions) ++ [sessions_request].
Proof.
  apply (failed_load_keeps_map_shows_empty (page (NetworkError "Failed to fetch"))
           two_sessions).
  reflexivity.
Defined.

(** A reply that goes through without a [sessions] array has emptied the
    map by the time the [forEach] throws: the map is lost and the empty
    list is written. *)
Theorem load_without_sessions_array_empties_map (env : Env) (w : World) (b : Body) :
  successful (server env (requests (browser w) ++ [sessions_request])) = Some b ->
  b_sessions b = None ->
  let w' := exec (ModernAnalysisSystem.loadSavedSessions env) w in
  this_sessions (this w') = [] /\
  dom (browser w') =
    dom (browser w) ++ (if has_element env "sessionsList" then [SessionsEmpty] else []).
Proof.
  intros Hok Hl w'. subst w'.
  unfold ModernAnalysisSystem.loadSavedSessions,
    ModernAnalysisSystem.renderEmptySessionsList, successful, sessions_request in *.
  js_run. destruct (server env _) as [r | msg]; [| discriminate].
  destruct (ok r); [| discriminate].
  destruct (payload r) as [b' | e]; [| discriminate].
  destruct (b_success b'); [| discriminate].
  injection Hok as ->. js_run. rewrite Hl. js_run.
  destruct (has_element env "sessionsList"); js_run; rewrite ?app_nil_r; repeat split.
Qed.

Lemma load_without_sessions_array_empties_map_witness :
  let env := page (answer no_session_id) in
  let w' := exec (ModernAnalysisSystem.loadSavedSessions env) two_sessions in
  this_sessions (this w') = [] /\
  dom (browser w') =
    dom (browser two_sessions)
      ++ (if has_element env "sessionsList" then [SessionsEmpty] else []).
Proof.
  apply (load_without_sessions_array_empties_map (page (answer no_session_id))
           two_sessions no_session_id);
    reflexivity.
Defined.

(** ** Frames: what a whole handler leaves alone *)

Section Frames.
Variable R : World -> World -> Prop.
Hypothesis R_refl : forall w, R w w.
Hypothesis R_trans : forall a b c, R a b -> R b c -> R a c.

Lemma frames_ret {A : Type} (a : A) : frames R (ret a).
Proof. intros w. apply R_refl. Qed.

Lemma frames_throw {A : Type} (msg : string) : frames R (@throw A msg).
Proof. intros w. apply R_refl. Qed.

Lemma frames_gets {A : Type} (f : World -> A) : frames R (gets f).
Proof. intros w. apply R_refl. Qed.

Lemma frames_getElement (env : Env) (sel : string) : frames R (getElement env sel).
Proof. apply frames_ret. Qed.

Lemma frames_bind {A B : Type} (m : JS A) (k : A -> JS B) :
  frames R m -> (forall a, frames R (k a)) -> frames R (bind m k).
Proof.
  intros Hm Hk w. unfold bind. specialize (Hm w).
  destruct (m w) as [[a | e] w1]; cbn [snd] in *; [| exact Hm].
  eapply R_trans; [exact Hm | apply Hk].
Qed.

Lemma frames_try_catch {A : Type} (m : JS A) (h : Error -> JS A) :
  frames R m -> (forall e, frames R (h e)) -> frames R (try_catch m h).
Proof.
  intros Hm Hh w. unfold try_catch. specialize (Hm w).
  destruct (m w) as [[a | e] w1]; cbn [snd] in *; [exact Hm |].
  eapply R_trans; [exact Hm | apply Hh].
Qed.

(** A step that reads the state and acts on what it read, followed by the
    rest: framed when the two-step unit and the rest are. *)
Lemma frames_gets_assoc {A B C : Type} (f : World -> A) (g : A -> JS B) (k : B -> JS C) :
  frames R (bind (gets f) g) ->
  (forall b, frames R (k b)) ->
  frames R (bind (gets f) (fun x => bind (g x) k)).
Proof.
  intros Hu Hk w. specialize (Hu w). unfold bind, gets in *. cbn [fst snd] in *.
  destruct (g (f w) w) as [[b | e] w1]; cbn [snd] in *; [| exact Hu].
  eapply R_trans; [exact Hu | apply Hk].
Qed.

End Frames.

(** Unfolds the structure of a method body down to the steps it is made
    of; [tac] settles each step. *)
Ltac frames_go R_refl R_trans tac :=
  repeat lazymatch goal with
  | |- frames _ (bind (gets _) (fun x => bind (set_this_sessions (@?g x)) (@?k x))) =>
      fail
  | |- frames _ (bind (gets _) (fun x => bind (clearInterval x) (@?k x))) => fail
  | |- frames _ (bind _ _) => apply (frames_bind _ R_trans); [| intros ?]
  | |- frames _ (try_catch _ _) => apply (frames_try_catch _ R_trans); [| intros ?]
  | |- frames _ (ret _) => apply (frames_ret _ R_refl)
  | |- frames _ (throw _) => apply (frames_throw _ R_refl)
  | |- frames _ (gets _) => apply (frames_gets _ R_refl)
  | |- frames _ (getElement _ _) => apply (frames_getElement _ R_refl)
  | |- frames _ (if ?c then _ else _) => destruct c
  | |- frames _ (match ?x with _ => _ end) => destruct x
  | |- frames _ _ => solve [tac]
  end.

(** *** The methods of the class *)

Section MethodFrames.
Variable R : World -> World -> Prop.
Hypothesis R_refl : forall w, R w w.
Hypothesis R_trans : forall a b c, R a b -> R b c -> R a c.
Hypothesis R_view : forall d, frames R (write_dom d).
Hypothesis R_notify : forall n, frames R (push_this_notifications n).
Hypothesis R_request : forall r, frames R (push_request r).
Hypothesis R_console : forall s, frames R (console_log s).
Hypothesis R_storage : forall f, frames R (set_localStorage f).
Hypothesis R_paused : forall v, frames R (set_this_isPaused v).
Hypothesis R_current : forall v, frames R (set_this_currentSessionId v).
Hypothesis R_start : frames R ModernAnalysisSystem.startProgressMonitoring.
Hypothesis R_stop : frames R ModernAnalysisSystem.stopProgressMonitoring.
Hypothesis R_clear : frames R (set_this_sessions []).
Hypothesis R_forEach : forall l,
  frames R (bind (gets (fun w => this_sessions (this w)))
                 (fun m => set_this_sessions
                             (fold_left (fun m s => Map_set (session_id s) s m) l m))).
Hypothesis R_delete : forall sessionId,
  frames R (bind (gets (fun w => this_sessions (this w)))
                 (fun m => set_this_sessions (Map_delete sessionId m))).
Variable env : Env.

Local Ltac step := frames_go R_refl R_trans ltac:(eauto).

Lemma frames_fetch (m u : string) (b : ReqBody) : frames R (fetch env m u b).
Proof. unfold fetch. step. Qed.

Lemma frames_json (r : Response) : frames R (json r).
Proof. unfold json. step. Qed.

Lemma frames_showNotification msg ty dur :
  frames R (ModernAnalysisSystem.showNotification msg ty dur).
Proof. apply R_notify. Qed.

Lemma frames_removeItem k : frames R (removeItem k).
Proof. apply R_storage. Qed.

Lemma frames_setItem k v : frames R (setItem k v).
Proof. apply R_storage. Qed.

Hint Resolve frames_fetch frames_json frames_showNotification frames_removeItem
  frames_setItem : core.

Lemma frames_showProgress show : frames R (ModernAnalysisSystem.showProgress env show).
Proof. unfold ModernAnalysisSystem.showProgress. step. Qed.

Lemma frames_updateSessionControls st :
  frames R (ModernAnalysisSystem.updateSessionControls env st).
Proof. unfold ModernAnalysisSystem.updateSessionControls. cbv zeta. step. Qed.

Lemma frames_updateProgress p msg est :
  frames R (ModernAnalysisSystem.updateProgress env p msg est).
Proof. unfold ModernAnalysisSystem.updateProgress. step. Qed.

Lemma frames_renderEmptySessionsList :
  frames R (ModernAnalysisSystem.renderEmptySessionsList env).
Proof. unfold ModernAnalysisSystem.renderEmptySessionsList. step. Qed.

Hint Resolve frames_showProgress frames_updateSessionControls frames_updateProgress
  frames_renderEmptySessionsList : core.

Lemma frames_renderSessionsList : frames R (ModernAnalysisSystem.renderSessionsList env).
Proof. unfold ModernAnalysisSystem.renderSessionsList. step. Qed.

Hint Resolve frames_renderSessionsList : core.

Lemma frames_loadSavedSessions : frames R (ModernAnalysisSystem.loadSavedSessions env).
Proof.
  unfold ModernAnalysisSystem.loadSavedSessions. step.
  apply (frames_gets_assoc R R_trans
           (fun w => this_sessions (this w))
           (fun m => set_this_sessions
                       (fold_left (fun m s => Map_set (session_id s) s m) l m))).
  - apply R_forEach.
  - intros ?. step.
Qed.

Hint Resolve frames_loadSavedSessions : core.

Lemma frames_progressTick : frames R (ModernAnalysisSystem.progressTick env).
Proof. unfold ModernAnalysisSystem.progressTick. step. Qed.

Lemma frames_validateFile f : frames R (ModernAnalysisSystem.validateFile f).
Proof. unfold ModernAnalysisSystem.validateFile. step. Qed.

Lemma frames_uploadFile f : frames R (ModernAnalysisSystem.uploadFile env f).
Proof.
  unfold ModernAnalysisSystem.uploadFile, ModernAnalysisSystem.addFileToList. step.
Qed.

Hint Resolve frames_validateFile frames_uploadFile : core.

Lemma frames_handleFiles files : frames R (ModernAnalysisSystem.handleFiles env files).
Proof.
  induction files as [| f rest IH]; cbn [ModernAnalysisSystem.handleFiles]; step.
Qed.

Lemma frames_validateForm : frames R (ModernAnalysisSystem.validateForm env).
Proof. unfold ModernAnalysisSystem.validateForm. cbv zeta. step. Qed.

Hint Resolve frames_validateForm : core.

Lemma frames_startAnalysis : frames R (ModernAnalysisSystem.startAnalysis env).
Proof. unfold ModernAnalysisSystem.startAnalysis. cbv zeta. step. Qed.

Lemma frames_pauseSession : frames R (ModernAnalysisSystem.pauseSession env).
Proof. unfold ModernAnalysisSystem.pauseSession. step. Qed.

Lemma frames_resumeSession : frames R (ModernAnalysisSystem.resumeSession env).
Proof. unfold ModernAnalysisSystem.resumeSession. step. Qed.

Lemma frames_saveSession : frames R (ModernAnalysisSystem.saveSession env).
Proof. unfold ModernAnalysisSystem.saveSession. step. Qed.

Lemma frames_continueSession sessionId :
  frames R (ModernAnalysisSystem.continueSession env sessionId).
Proof. unfold ModernAnalysisSystem.continueSession. step. Qed.

Lemma frames_deleteSession sessionId :
  frames R (ModernAnalysisSystem.deleteSession env sessionId).
Proof.
  unfold ModernAnalysisSystem.deleteSession. step.
  apply (frames_gets_assoc R R_trans
           (fun w => this_sessions (this w))
           (fun m => set_this_sessions (Map_delete sessionId m))).
  - apply R_delete.
  - intros ?. step.
Qed.

Lemma frames_clearAllSessions : frames R (ModernAnalysisSystem.clearAllSessions env).
Proof. unfold ModernAnalysisSystem.clearAllSessions. step. Qed.

Lemma frames_checkSessionStatus sessionId :
  frames R (ModernAnalysisSystem.checkSessionStatus env sessionId).
Proof. unfold ModernAnalysisSystem.checkSessionStatus. step. Qed.

Hint Resolve frames_checkSessionStatus : core.

Lemma frames_restoreLastSession : frames R (ModernAnalysisSystem.restoreLastSession env).
Proof. unfold ModernAnalysisSystem.restoreLastSession, getItem. step. Qed.

Hint Resolve frames_progressTick frames_handleFiles frames_startAnalysis
  frames_pauseSession frames_resumeSession frames_saveSession frames_continueSession
  frames_deleteSession frames_clearAllSessions frames_restoreLastSession : core.

(** *** The free functions and the event loop *)

Hypothesis R_toast : forall n, frames R (push_toast n).
Hypothesis R_global_current : forall v, frames R (set_currentSessionId v).
Hypothesis R_function_start : forall sessionId, frames R (startProgressMonitoring sessionId).
Hypothesis R_function_clear :
  frames R (bind (gets (fun w => progressInterval (globals w))) clearInterval).

Lemma frames_function_showNotification msg ty : frames R (showNotification msg ty).
Proof. apply R_toast. Qed.

Hint Resolve frames_function_showNotification : core.

Lemma frames_updateProgressUI p step est : frames R (updateProgressUI env p step est).
Proof. unfold updateProgressUI. frames_go R_refl R_trans ltac:(eauto). Qed.

Hint Resolve frames_updateProgressUI : core.

Lemma frames_function_progressTick sessionId : frames R (progressTick env sessionId).
Proof.
  unfold progressTick. step.
  - apply (frames_gets_assoc R R_trans
             (fun w => progressInterval (globals w)) clearInterval).
    + apply R_function_clear.
    + intros ?. step.
  - apply (frames_gets_assoc R R_trans
             (fun w => progressInterval (globals w)) clearInterval).
    + apply R_function_clear.
    + intros ?. step.
Qed.

Lemma frames_addAnalysisControls : frames R (addAnalysisControls env).
Proof. unfold addAnalysisControls. step. Qed.

Hint Resolve frames_function_progressTick frames_addAnalysisControls : core.

Lemma frames_function_startAnalysis : frames R (startAnalysis env).
Proof. unfold startAnalysis. cbv zeta. step. Qed.

Lemma frames_function_handleFiles files : frames R (handleFiles files).
Proof. unfold handleFiles. step. Qed.

Hint Resolve frames_function_startAnalysis : core.

Lemma frames_run_callback p : frames R (run_callback env p).
Proof. unfold run_callback. step. Qed.

Hint Resolve frames_run_callback : core.

(** Every event handler keeps what each of its steps keeps. *)
Lemma frames_handle ev : frames R (handle env ev).
Proof. unfold handle. step. Qed.

End MethodFrames.

(** *** Relations that the frames are instantiated with *)

Lemma keeps_refl (P : World -> Prop) (w : World) : keeps P w w.
Proof. intros H. exact H. Qed.

Lemma keeps_trans (P : World -> Prop) (a b c : World) :
  keeps P a b -> keeps P b c -> keeps P a c.
Proof. unfold keeps. auto. Qed.

Lemma same_refl {B : Type} (f : World -> B) (w : World) : same f w w.
Proof. reflexivity. Qed.

Lemma same_trans {B : Type} (f : World -> B) (a b c : World) :
  same f a b -> same f b c -> same f a c.
Proof. unfold same. congruence. Qed.

Lemma frames_modify (R : World -> World -> Prop) (g : World -> World) :
  (forall w, R w (g w)) -> frames R (modify g).
Proof. intros H w. apply H. Qed.

(** Settles a step that is one field update. *)
Ltac frames_leaf tac :=
  intros;
  cbv [set_this_currentSessionId set_this_progressInterval set_this_sessions
       set_this_isPaused push_this_notifications set_currentSessionId
       set_progressInterval set_localStorage set_intervals push_request
       push_toast write_dom console_log];
  apply frames_modify; intros ?; tac.

(** ** The two implementations do not share their state *)

(** No handler of the class touches the module-level variables of the free
    functions or their notification container. *)
Theorem methods_leave_function_state (env : Env) (ev : Event) (w : World) :
  method_event ev = true ->
  globals (exec (handle env ev) w) = globals w /\
  toasts (browser (exec (handle env ev) w)) = toasts (browser w).
Proof.
  intros Hev.
  set (f := fun w : World => (globals w, toasts (browser w))).
  assert (H : frames (same f) (handle env ev)).
  { pose proof (same_refl f) as Hrefl. pose proof (same_trans f) as Htrans.
    assert (Hstart : frames (same f) ModernAnalysisSystem.startProgressMonitoring).
    { unfold ModernAnalysisSystem.startProgressMonitoring, setInterval.
      frames_go Hrefl Htrans ltac:(frames_leaf ltac:(unfold same; reflexivity)). }
    assert (Hstop : frames (same f) ModernAnalysisSystem.stopProgressMonitoring).
    { unfold ModernAnalysisSystem.stopProgressMonitoring, clearInterval.
      frames_go Hrefl Htrans ltac:(frames_leaf ltac:(unfold same; reflexivity)). }
    assert (Hclear : frames (same f) (set_this_sessions [])).
    { frames_leaf ltac:(unfold same; reflexivity). }
    assert (HforEach : forall l,
      frames (same f)
        (bind (gets (fun w => this_sessions (this w)))
              (fun m => set_this_sessions
                          (fold_left (fun m s => Map_set (session_id s) s m) l m)))).
    { intros l. frames_go Hrefl Htrans ltac:(frames_leaf ltac:(unfold same; reflexivity)). }
    assert (Hdelete : forall sessionId,
      frames (same f)
        (bind (gets (fun w => this_sessions (this w)))
              (fun m => set_this_sessions (Map_delete sessionId m)))).
    { intros sessionId. frames_go Hrefl Htrans ltac:(frames_leaf ltac:(unfold same; reflexivity)). }
    destruct ev; try discriminate Hev; unfold handle;
      frames_go Hrefl Htrans
        ltac:(first
          [ apply frames_loadSavedSessions
          | apply frames_restoreLastSession
          | apply frames_startAnalysis
          | apply frames_pauseSession
          | apply frames_resumeSession
          | apply frames_saveSession
          | apply frames_clearAllSessions
          | apply frames_continueSession
          | apply frames_deleteSession
          | apply frames_handleFiles ];
          first [assumption | frames_leaf ltac:(unfold same; reflexivity)]). }
  specialize (H w). unfold same, f in H. unfold exec.
  injection H as H1 H2. now split.
Qed.

Lemma methods_leave_function_state_witness :
  globals (exec (handle (page (answer sample_body)) submit_analysisForm) function_polling) =
    globals function_polling /\
  toasts (browser (exec (handle (page (answer sample_body)) submit_analysisForm)
                        function_polling)) =
    toasts (browser function_polling).
Proof.
  apply (methods_leave_function_state
           (page (answer sample_body)) submit_analysisForm function_polling).
  reflexivity.
Defined.

(** None of the free functions touches the instance of the class or
    [localStorage]: a session they start is never persisted, and the
    methods of the class never learn of it. *)
Theorem functions_leave_instance
    (env : Env) (sessionId : string) (files : option (list File)) (w : World) :
  let untouched (m : JS unit) :=
    this (exec m w) = this w /\
    localStorage (browser (exec m w)) = localStorage (browser w) in
  untouched (startAnalysis env) /\
  untouched (progressTick env sessionId) /\
  untouched (handleFiles files).
Proof.
  set (f := fun w : World => (this w, localStorage (browser w))).
  pose proof (same_refl f) as Hrefl. pose proof (same_trans f) as Htrans.
  assert (Hstart : forall s, frames (same f) (startProgressMonitoring s)).
  { intros s. unfold startProgressMonitoring, setInterval.
    frames_go Hrefl Htrans ltac:(frames_leaf ltac:(unfold same; reflexivity)). }
  assert (Hclear :
    frames (same f) (bind (gets (fun w => progressInterval (globals w))) clearInterval)).
  { apply (frames_bind _ Htrans); [apply (frames_gets _ Hrefl) |].
    intros h. unfold clearInterval.
    frames_go Hrefl Htrans ltac:(frames_leaf ltac:(unfold same; reflexivity)). }
  assert (H : forall m : JS unit, frames (same f) m ->
                this (exec m w) = this w /\
                localStorage (browser (exec m w)) = localStorage (browser w)).
  { intros m Hm. specialize (Hm w). unfold same, f in Hm. unfold exec.
    injection Hm as H1 H2. now split. }
  cbv zeta. split; [| split]; apply H.
  - apply frames_function_startAnalysis;
      first [assumption | frames_leaf ltac:(unfold same; reflexivity)].
  - apply frames_function_progressTick;
      first [assumption | frames_leaf ltac:(unfold same; reflexivity)].
  - apply frames_function_handleFiles;
      first [assumption | frames_leaf ltac:(unfold same; reflexivity)].
Qed.

(** ** Invariants of every reachable state *)

Lemma NoDup_fst_filter {A B : Type} (p : A * B -> bool) (l : list (A * B)) :
  NoDup (map fst l) -> NoDup (map fst (List.filter p l)).
Proof.
  induction l as [| x l IH]; cbn [List.filter map]; [constructor |].
  intros H. inversion H as [| ? ? Hnotin Hrest]; subst.
  destruct (p x); cbn [map]; [| auto].
  constructor; [| auto]. intros Hin. apply Hnotin.
  apply list_elem_of_In in Hin. apply list_elem_of_In.
  apply in_map_iff in Hin as (e & He & Hin). apply filter_In in Hin as [Hin _].
  apply in_map_iff. eauto.
Qed.




Lemma timers_wf_leaf (g : World -> World) :
  (forall w, intervals (browser (g w)) = intervals (browser w)) ->
  (forall w, next_timer (browser (g w)) = next_timer (browser w)) ->
  (forall w, this_progressInterval (this (g w)) = this_progressInterval (this w)) ->
  (forall w, progressInterval (globals (g w)) = progressInterval (globals w)) ->
  frames (keeps timers_wf) (modify g).
Proof.
  intros Hi Hn Hh Hg. apply frames_modify. intros w.
  unfold keeps, timers_wf, active_timers. now rewrite Hi, Hn, Hh, Hg.
Qed.

(** A fresh timer keeps the timers well formed, whoever takes its handle. *)
Lemma timers_wf_fresh (w : World) (l : list (positive * Poller)) (n : positive) (p : Poller) :
  NoDup (map fst l) ->
  (forall id, In id (map fst l) -> (id < n)%positive) ->
  NoDup (map fst (l ++ [(n, p)])) /\
  (forall id, In id (map fst (l ++ [(n, p)])) -> (id < Pos.succ n)%positive).
Proof.
  intros Hnodup Hbelow. rewrite map_app. cbn [map fst]. split.
  - apply NoDup_app. split; [assumption |]. split.
    + intros x Hx [-> | []]%list_elem_of_In. apply list_elem_of_In in Hx.
      apply Hbelow in Hx. lia.
    + constructor; [intros H; inversion H | constructor].
  - intros id [Hin | [<- | []]]%in_app_or; [apply Hbelow in Hin |]; lia.
Qed.

Lemma timers_wf_method_start :
  frames (keeps timers_wf) ModernAnalysisSystem.startProgressMonitoring.
Proof.
  intros w Hw. pose proof Hw as (Hnodup & Hbelow & Hhandle & Hglobal).
  unfold ModernAnalysisSystem.startProgressMonitoring. js_run.
  destruct (truthy (this_currentSessionId (this w))); js_run;
    [| exact Hw].
  destruct (timers_wf_fresh w (intervals (browser w)) (next_timer (browser w))
              MethodPoll Hnodup Hbelow) as [Hnodup' Hbelow'].
  unfold timers_wf, active_timers. js_run. split; [assumption |].
  split; [assumption |]. split.
  - intros id [= Hid]. subst id. apply in_or_app. right. now left.
  - intros id Hid. destruct (Hglobal id Hid) as [Hlt Hnot]. split; [lia |].
    intros [Hin | [[= Heq] | []]]%in_app_or; [auto | lia].
Qed.

Lemma timers_wf_function_start (sessionId : string) :
  frames (keeps timers_wf) (startProgressMonitoring sessionId).
Proof.
  intros w Hw. pose proof Hw as (Hnodup & Hbelow & Hhandle & Hglobal).
  unfold startProgressMonitoring. js_run.
  destruct (timers_wf_fresh w (intervals (browser w)) (next_timer (browser w))
              (FunctionPoll sessionId) Hnodup Hbelow) as [Hnodup' Hbelow'].
  unfold timers_wf, active_timers. js_run. split; [assumption |].
  split; [assumption |]. split.
  - intros id Hid. apply in_or_app. left. auto.
  - intros id [= Hid]. subst id. split; [lia |].
    intros [Hin | [[=] | []]]%in_app_or.
    assert (Hlt : (next_timer (browser w) < next_timer (browser w))%positive); [| lia].
    apply Hbelow. unfold active_timers. apply in_map_iff.
    exists (next_timer (browser w), MethodPoll). now split.
Qed.

Lemma timers_wf_method_stop :
  frames (keeps timers_wf) ModernAnalysisSystem.stopProgressMonitoring.
Proof.
  intros w Hw. pose proof Hw as (Hnodup & Hbelow & Hhandle & Hglobal).
  unfold ModernAnalysisSystem.stopProgressMonitoring. js_run.
  destruct (this_progressInterval (this w)) as [c |]; js_run; [| exact Hw].
  unfold timers_wf, active_timers. js_run. split; [| split; [| split]].
  - now apply NoDup_fst_filter.
  - intros id (t & <- & Ht)%in_map_iff. apply filter_In in Ht as [Ht _].
    apply Hbelow. unfold active_timers. apply in_map_iff. eauto.
  - intros id [=].
  - intros id Hid. destruct (Hglobal id Hid) as [Hlt Hnot]. split; [assumption |].
    intros Hin. apply filter_In in Hin as [Hin _]. auto.
Qed.

Lemma timers_wf_function_clear :
  frames (keeps timers_wf)
    (bind (gets (fun w => progressInterval (globals w))) clearInterval).
Proof.
  intros w Hw. pose proof Hw as (Hnodup & Hbelow & Hhandle & Hglobal). js_run.
  destruct (progressInterval (globals w)) as [g |] eqn:Hg; js_run;
    [| exact Hw].
  unfold timers_wf, active_timers. js_run. rewrite Hg.
  destruct (Hglobal g eq_refl) as [Hlt Hnot]. split; [| split; [| split]].
  - now apply NoDup_fst_filter.
  - intros id (t & <- & Ht)%in_map_iff. apply filter_In in Ht as [Ht _].
    apply Hbelow. unfold active_timers. apply in_map_iff. eauto.
  - intros id Hid. apply filter_In. split; [auto |]. cbn [fst].
    apply negb_true_iff, Pos.eqb_neq. intros ->. auto.
  - intros id [= Hid]. subst id. split; [assumption |].
    intros Hin. apply filter_In in Hin as [Hin _]. auto.
Qed.

Lemma timers_wf_handle (env : Env) (ev : Event) :
  frames (keeps timers_wf) (handle env ev).
Proof.
  assert (Hleaf : forall {A : Type} (step : A -> JS unit),
             (forall a, exists g, step a = modify g /\
                (forall w, intervals (browser (g w)) = intervals (browser w)) /\
                (forall w, next_timer (browser (g w)) = next_timer (browser w)) /\
                (forall w, this_progressInterval (this (g w)) =
                           this_progressInterval (this w)) /\
                (forall w, progressInterval (globals (g w)) =
                           progressInterval (globals w))) ->
             forall a, frames (keeps timers_wf) (step a)).
  { intros A step Hstep a. destruct (Hstep a) as (g & -> & Hi & Hn & Hh & Hg).
    now apply timers_wf_leaf. }
  apply (frames_handle (keeps timers_wf) (keeps_refl _) (keeps_trans _)).
  - apply Hleaf. intros d. eexists. split; [reflexivity |]. repeat split.
  - apply Hleaf. intros n. eexists. split; [reflexivity |]. repeat split.
  - apply Hleaf. intros r. eexists. split; [reflexivity |]. repeat split.
  - apply Hleaf. intros s. eexists. split; [reflexivity |]. repeat split.
  - apply Hleaf. intros f. eexists. split; [reflexivity |]. repeat split.
  - apply Hleaf. intros v. eexists. split; [reflexivity |]. repeat split.
  - apply Hleaf. intros v. eexists. split; [reflexivity |]. repeat split.
  - apply timers_wf_method_start.
  - apply timers_wf_method_stop.
  - apply (Hleaf _ set_this_sessions). intros m. eexists. split; [reflexivity |].
    repeat split.
  - intros l. apply (frames_bind _ (keeps_trans timers_wf));
      [apply (frames_gets _ (keeps_refl timers_wf)) |].
    intros m. apply (Hleaf _ set_this_sessions). intros m'. eexists.
    split; [reflexivity |]. repeat split.
  - intros sessionId. apply (frames_bind _ (keeps_trans timers_wf));
      [apply (frames_gets _ (keeps_refl timers_wf)) |].
    intros m. apply (Hleaf _ set_this_sessions). intros m'. eexists.
    split; [reflexivity |]. repeat split.
  - apply Hleaf. intros n. eexists. split; [reflexivity |]. repeat split.
  - apply Hleaf. intros v. eexists. split; [reflexivity |]. repeat split.
  - apply timers_wf_function_start.
  - apply timers_wf_function_clear.
Qed.

(** In every state that a run of events reaches, timer handles are distinct
    and below the next to be handed out, [this.progressInterval] names an
    active timer of the method's poll, and the module-level
    [progressInterval] names no timer of the method's poll. *)
Theorem reachable_timers_wf (storage : gmap string string) (w : World) :
  reachable storage w -> timers_wf w.
Proof.
  induction 1 as [| env ev w Hreach IH].
  - unfold timers_wf, active_timers. cbn. repeat split.
    + constructor.
    + intros id [].
    + intros id [=].
    + discriminate.
    + discriminate.
  - apply (timers_wf_handle env ev w IH).
Qed.

Lemma reachable_polling : reachable ∅ polling.
Proof.
  apply (reachable_step ∅ (page (answer sample_body)) submit_analysisForm).
  apply reachable_initial.
Qed.

Lemma reachable_timers_wf_witness : timers_wf polling.
Proof. apply (reachable_timers_wf ∅ polling). apply reachable_polling. Defined.

Lemma filter_absent (id : positive) (l : list (positive * Poller)) :
  ~ In id (map fst l) ->
  List.filter (fun t => negb (Pos.eqb (fst t) id)) l = l.
Proof.
  induction l as [| [j q] l IH]; cbn [map fst List.filter In]; [reflexivity |].
  intros Hnotin. destruct (Pos.eqb_spec j id) as [-> | Hne]; cbn [negb].
  - exfalso. apply Hnotin. now left.
  - f_equal. apply IH. intros H. apply Hnotin. now right.
Qed.

Lemma filter_out_one (id : positive) (p : Poller) (l : list (positive * Poller)) :
  NoDup (map fst l) ->
  In (id, p) l ->
  S (length (List.filter (fun t => negb (Pos.eqb (fst t) id)) l)) = length l.
Proof.
  induction l as [| [j q] l IH]; cbn [map fst List.filter In length]; [intros _ [] |].
  intros Hnodup Hin. inversion Hnodup as [| ? ? Hnotin Hrest]; subst.
  destruct (Pos.eqb_spec j id) as [-> | Hne]; cbn [negb length].
  - f_equal. rewrite filter_absent; [reflexivity |].
    intros H. apply Hnotin. now apply list_elem_of_In.
  - f_equal. apply IH; [assumption |].
    destruct Hin as [[= -> _] | Hin]; [congruence | assumption].
Qed.

(** In a reachable state [stopProgressMonitoring] cancels exactly one timer
    when the handle is set, a timer of the method's poll that was active,
    and the timer is gone afterwards. *)
Theorem reachable_stop_cancels_one_timer
    (storage : gmap string string) (w : World) (id : positive) :
  reachable storage w ->
  this_progressInterval (this w) = Some id ->
  let w' := exec ModernAnalysisSystem.stopProgressMonitoring w in
  In id (method_pollers w) /\
  ~ In id (active_timers w') /\
  S (length (intervals (browser w'))) = length (intervals (browser w)) /\
  this_progressInterval (this w') = None.
Proof.
  intros Hreach Hid w'. subst w'.
  destruct (reachable_timers_wf storage w Hreach) as (Hnodup & _ & Hhandle & _).
  specialize (Hhandle id Hid).
  unfold ModernAnalysisSystem.stopProgressMonitoring, method_pollers, active_timers.
  js_run. rewrite Hid. js_run. split; [| split; [| split]].
  - apply in_map_iff. exists (id, MethodPoll). split; [reflexivity |].
    apply filter_In. now split.
  - apply filter_out_timer.
  - now apply (filter_out_one id MethodPoll).
  - reflexivity.
Qed.

Lemma reachable_stop_cancels_one_timer_witness :
  let w' := exec ModernAnalysisSystem.stopProgressMonitoring polling in
  In 1%positive (method_pollers polling) /\
  ~ In 1%positive (active_timers w') /\
  S (length (intervals (browser w'))) = length (intervals (browser polling)) /\
  this_progressInterval (this w') = None.
Proof.
  apply (reachable_stop_cancels_one_timer ∅ polling 1%positive).
  - apply reachable_polling.
  - reflexivity.
Defined.

(** ** The free functions *)

Lemma updateProgressUI_view (env : Env) (p : number) (step est : value) :
  view_only (updateProgressUI env p step est).
Proof. unfold updateProgressUI. auto 10 with view. Qed.

Ltac js_function_view_in H :=
  match type of H with
  | context [updateProgressUI ?e ?p ?s ?t ?w] =>
      let Hv := fresh in
      destruct (updateProgressUI_view e p s t w) as ([] & ? & Hv); rewrite Hv in H;
      clear Hv
  end; cbv [add_dom] in H; js_run_in H.

Lemma filter_twice {A : Type} (p : A -> bool) (l : list A) :
  List.filter p (List.filter p l) = List.filter p l.
Proof.
  induction l as [| x l IH]; cbn [List.filter]; [reflexivity |].
  destruct (p x) eqn:Hp; cbn [List.filter]; [rewrite Hp; f_equal |]; exact IH.
Qed.

(** One tick of the free function's poll sends its one request and never
    resets the module-level handle. The poll goes on, silently, only on a
    reply with a truthy [success] and no truthy [completed]; on anything
    else (completion, an error reply, a transport failure) the timer of the
    handle is cleared and at least one notification is shown. *)
Theorem function_poll_goes_on_only_in_progress
    (env : Env) (sessionId : string) (w : World) :
  let reply := server env (requests (browser w) ++ [function_progress_request sessionId]) in
  let w' := exec (progressTick env sessionId) w in
  requests (browser w') = requests (browser w) ++ [function_progress_request sessionId] /\
  progressInterval (globals w') = progressInterval (globals w) /\
  if in_progress reply then
    intervals (browser w') = intervals (browser w) /\
    toasts (browser w') = toasts (browser w)
  else
    intervals (browser w') =
      match progressInterval (globals w) with
      | Some id => List.filter (fun t => negb (Pos.eqb (fst t) id)) (intervals (browser w))
      | None => intervals (browser w)
      end /\
    exists n ns, toasts (browser w') = toasts (browser w) ++ n :: ns.
Proof.
  intros reply w'. subst reply w'. js_outcome E.
  unfold progressTick in E.
  unfold in_progress, accepted, function_progress_request in *.
  js_run_in E.
  destruct (server env _) as [r | msg]; js_run_in E.
  - destruct (payload r) as [b | e]; js_run_in E.
    + destruct (b_success b); js_run_in E.
      * js_function_view_in E. destruct (b_completed b); cbn [negb]; js_run_in E.
        -- destruct (progressInterval (globals w)) as [id |] eqn:Hg;
             js_run_in E; destruct (has_element env "progress-section");
             js_run_in E; rewrite ?Hg in E; js_run_in E; js_done E;
             rewrite ?filter_twice, <- ?app_assoc;
             (split; [reflexivity |]); (split; [assumption || reflexivity |]);
             (split; [reflexivity |]); eexists _, _; reflexivity.
        -- js_done E. repeat split.
      * destruct (progressInterval (globals w)) as [id |] eqn:Hg;
          js_run_in E; js_done E;
          (split; [reflexivity |]); (split; [assumption || reflexivity |]);
          (split; [reflexivity |]); eexists _, _; reflexivity.
    + destruct (progressInterval (globals w)) as [id |] eqn:Hg;
        js_run_in E; js_done E;
        (split; [reflexivity |]); (split; [assumption || reflexivity |]);
        (split; [reflexivity |]); eexists _, _; reflexivity.
  - destruct (progressInterval (globals w)) as [id |] eqn:Hg;
      js_run_in E; js_done E;
      (split; [reflexivity |]); (split; [assumption || reflexivity |]);
      (split; [reflexivity |]); eexists _, _; reflexivity.
Qed.



Lemma both_filled_request (env : Env) :
  both_filled env = true ->
  exists seg prod,
    option_map trim (field_value env "segmento") = Some seg /\
    option_map trim (field_value env "produto") = Some prod /\
    seg <> [] /\ prod <> [] /\
    function_analysis_request env =
      {| method := "POST"; url := "/api/analyze"; body := AnalysisJson seg prod |}.
Proof.
  unfold both_filled, function_analysis_request.
  destruct (field_value env "segmento") as [v |]; cbn [option_map]; [| discriminate].
  destruct (field_value env "produto") as [v' |]; cbn [option_map];
    [| destruct (trim v); discriminate].
  destruct (trim v) as [| c s] eqn:Hv; [discriminate |].
  destruct (trim v') as [| c' p] eqn:Hv'; [discriminate |].
  intros _. exists (c :: s), (c' :: p). repeat split; discriminate.
Qed.

(** When the request of the free function [startAnalysis] fails in any way
    (transport, a content type that is not JSON, a body that does not parse,
    an HTTP status that is not ok, a [success] that is not truthy), the
    start button is enabled again right after having been disabled, the
    notifications are the opening notice and one error, and no poll is
    started. *)
Theorem failed_function_startAnalysis_reenables_button (env : Env) (w : World) :
  both_filled env = true ->
  function_unsuccessful
    (server env (requests (browser w) ++ [function_analysis_request env])) = true ->
  let w' := exec (startAnalysis env) w in
  requests (browser w') = requests (browser w) ++ [function_analysis_request env] /\
  dom (browser w') =
    dom (browser w)
      ++ (if has_element env "start-analysis"
          then [ButtonDisabled "start-analysis" true; ButtonDisabled "start-analysis" false]
          else []) /\
  (exists msg,
      toasts (browser w') =
        toasts (browser w)
          ++ [{| message := "Iniciando análise avançada..."; type := info;
                 duration := 5000 |};
              {| message := "Erro: " +:+ msg; type := error; duration := 5000 |}]) /\
  intervals (browser w') = intervals (browser w) /\
  globals w' = globals w.
Proof.
  intros Hfilled Hfail w'. subst w'.
  destruct (both_filled_request env Hfilled) as (seg & prod & Hs & Hp & Hseg & Hprod & Hreq).
  rewrite Hreq in *. clear Hreq. js_outcome E.
  unfold startAnalysis in E. cbv zeta in E. rewrite Hs, Hp in E.
  destruct seg as [| c0 s]; [congruence |].
  destruct prod as [| c' p]; [congruence |].
  unfold function_unsuccessful in Hfail. js_run_in E.
  destruct (has_element env "start-analysis"); js_run_in E;
    (destruct (server env _) as [r | msg]; js_run_in E;
     [ destruct (json_content_type r); cbn [negb orb] in Hfail; js_run_in E;
       [ destruct (payload r) as [b | e]; js_run_in E;
         [ destruct (ok r); cbn [negb orb] in Hfail; js_run_in E;
           [ apply negb_true_iff in Hfail; rewrite Hfail in E; js_run_in E |] |] |] |]);
    js_done E; rewrite <- ?app_assoc, ?app_nil_r; cbn [app];
    (split; [reflexivity |]); (split; [reflexivity |]);
    (split; [eexists; reflexivity |]); (split; [reflexivity |]);
    destruct (globals w); reflexivity.
Qed.

Lemma failed_function_startAnalysis_reenables_button_witness :
  let env := page (answer refusal) in
  let w' := exec (startAnalysis env) (initial ∅) in
  requests (browser w') = requests (browser (initial ∅)) ++ [function_analysis_request env] /\
  dom (browser w') =
    dom (browser (initial ∅))
      ++ (if has_element env "start-analysis"
          then [ButtonDisabled "start-analysis" true; ButtonDisabled "start-analysis" false]
          else []) /\
  (exists msg,
      toasts (browser w') =
        toasts (browser (initial ∅))
          ++ [{| message := "Iniciando análise avançada..."; type := info;
                 duration := 5000 |};
              {| message := "Erro: " +:+ msg; type := error; duration := 5000 |}]) /\
  intervals (browser w') = intervals (browser (initial ∅)) /\
  globals w' = globals (initial ∅).
Proof.
  apply (failed_function_startAnalysis_reenables_button (page (answer refusal)) (initial ∅));
    reflexivity.
Defined.
